(** * import_plays_to_sqlite: CSV to SQLite import

    A shallow embedding of [src/import_plays_to_sqlite.py].

    The script is glue over a dataframe library and a database driver.
    What the script itself decides is embedded as written: the column
    loop of [coerce_numeric_columns], the copy it works on, the order of
    the calls in [write_sqlite] and [main], the early exit on a missing
    input file, the table name written into the text of two SQL
    statements.  What the libraries decide (which strings are numeric
    literals, how dtypes are refined, which SQL type a column gets,
    when a statement fails, which table a text names) is a parameter,
    collected in the record [pandas]. *)

From Stdlib Require Import ZArith QArith Ascii String.
From stdpp Require Import gmap strings list fin_maps.

Set Default Proof Using "Type".
Open Scope string_scope.

(** ** Frames *)

Inductive dtype :=
  | object_      (* numpy object: any Python value per cell *)
  | string_      (* pandas StringDtype *)
  | int64
  | float64
  | bool_
  | Int64        (* nullable integer *)
  | Float64      (* nullable float *)
  | boolean.     (* nullable boolean *)

(** The exceptions the script and its libraries raise. *)
Inductive exn :=
  | SystemExit (msg : string)
  | FileNotFoundError (p : string)
  | IsADirectoryError (p : string)
  | FileExistsError (p : string)
  | UnicodeDecodeError
  | ParserError
  | ValueError (msg : string)
  | OperationalError (msg : string)
  | DatabaseError (msg : string).

Section Frames.

(** Numeric scalars (Python [int] and [float] other than NaN) are kept
    abstract: the script never computes with them. *)
Context {number : Type}.

(** A cell.  [NA] stands for every missing marker ([None], NaN, [pd.NA]);
    a float NaN is therefore never a [Num]. *)
Inductive scalar :=
  | NA
  | Str (s : string)
  | Num (x : number)
  | Bool (b : bool).

Record Series := mkSeries { dtype_of : dtype; values : list scalar }.

(** A frame is its columns in order; [len(df)] is the common length. *)
Definition DataFrame := list (string * Series).

Definition columns (df : DataFrame) : list string := map fst df.

(** [df[col]] for a column label. *)
Fixpoint getitem (df : DataFrame) (col : string) : option Series :=
  match df with
  | [] => None
  | (name, s) :: rest => if String.eqb name col then Some s else getitem rest col
  end.

(** [df[col] = s] for a label that is already a column: the column keeps
    its position. *)
Fixpoint setitem (df : DataFrame) (col : string) (s : Series) : DataFrame :=
  match df with
  | [] => []
  | (name, old) :: rest =>
      if String.eqb name col then (name, s) :: rest
      else (name, old) :: setitem rest col s
  end.

Definition len (df : DataFrame) : nat :=
  match df with
  | [] => 0
  | (_, s) :: _ => length (values s)
  end.

(** ** The libraries *)

(** A table of a database: declared columns (name and type) and rows. *)
Record Table := mkTable {
  schema : list (string * string);
  rows : list (list scalar)
}.

(** Everything the script asks of pandas and of SQLite and that it does
    not decide itself. *)
Record pandas := mkPandas {
  (** value of a non-empty string as a numeric literal, [None] when it is
      not one (or when it denotes NaN) *)
  parse : string -> option number;
  (** Python [int] rather than [float] *)
  is_int : number -> bool;
  (** the value stored in a float64 column *)
  as_float : number -> number;
  (** [True] is 1 and [False] is 0 *)
  of_bool : bool -> number;
  (** [DataFrame.convert_dtypes]; [None] when it raises *)
  convert_dtypes : DataFrame -> option DataFrame;
  (** [pd.read_csv(text, low_memory=False)] on the file's text; [None]
      when it raises *)
  read_csv : string -> option DataFrame;
  (** the column type [to_sql] declares for a column *)
  sql_type : Series -> string;
  (** what [to_sql] raises, if anything, when it creates the table of
      that name for the frame, in a database with these tables *)
  sql_create_error : gmap string Table -> string -> DataFrame -> option exn;
  (** what [to_sql] raises, if anything, when it inserts the frame's
      rows into the table of that name, in a database with these
      tables *)
  sql_insert_error : gmap string Table -> string -> DataFrame -> option exn;
  (** the table that a text names to SQLite when the text is written in
      the parentheses of [PRAGMA table_info(...)]; [None] when the
      statement is then an error *)
  sql_pragma_name : string -> option string;
  (** the same for a text written after [SELECT COUNT( * ) FROM] *)
  sql_from_name : string -> option string
}.

Variable pd : pandas.

(** ** Series operations used by the loop *)

Definition is_object_dtype (s : Series) : bool :=
  match dtype_of s with object_ => true | _ => false end.

(** For an object column the library may answer either way, depending on
    its version; the script only uses the disjunction with
    [is_object_dtype]. *)
Definition is_string_dtype (s : Series) : bool :=
  match dtype_of s with string_ => true | _ => false end.

Definition notna_cell (c : scalar) : bool :=
  match c with NA => false | _ => true end.

(** [s.notna()] *)
Definition notna (s : Series) : list bool := map notna_cell (values s).

(** [len(str(c)) > 0]: the text of a number, of a boolean and of a
    missing marker ("nan", "None", "<NA>") is never empty. *)
Definition str_len_pos_cell (c : scalar) : bool :=
  match c with
  | Str s => negb (String.eqb s "")
  | _ => true
  end.

(** [s.astype(str).str.len() > 0] *)
Definition str_len_pos (s : Series) : list bool := map str_len_pos_cell (values s).

(** [a & b] on boolean series *)
Definition mask_and (a b : list bool) : list bool :=
  map (fun p => andb (fst p) (snd p)) (combine a b).

(** [m.any()] and [m.all()] *)
Definition any (m : list bool) : bool := existsb (fun b => b) m.
Definition all (m : list bool) : bool := forallb (fun b => b) m.

(** [s[m]]: the cells where the mask holds *)
Definition select (vs : list scalar) (m : list bool) : list scalar :=
  map fst (List.filter snd (combine vs m)).

(** One cell of [pd.to_numeric(s, errors="coerce")]: missing stays
    missing, the empty string and every string that is not a numeric
    literal become NaN. *)
Definition to_numeric_cell (c : scalar) : option number :=
  match c with
  | NA => None
  | Str s => if String.eqb s "" then None else parse pd s
  | Num x => Some x
  | Bool b => Some (of_bool pd b)
  end.

Definition is_int_cell (c : scalar) : bool :=
  match to_numeric_cell c with
  | Some x => is_int pd x
  | None => false
  end.

Definition is_bool_cell (c : scalar) : bool :=
  match c with Bool _ => true | _ => false end.

Definition numeric_cell (float : bool) (c : scalar) : scalar :=
  match to_numeric_cell c with
  | Some x => Num (if float then as_float pd x else x)
  | None => NA
  end.

(** [pd.to_numeric(s, errors="coerce")]: a column of Python booleans
    stays boolean; otherwise the result is int64 when every cell is an
    integer, and float64, with NaN for the failures, when not. *)
Definition to_numeric (s : Series) : Series :=
  let vs := values s in
  if negb (Nat.eqb (length vs) 0) && forallb is_bool_cell vs then
    mkSeries bool_ vs
  else if forallb is_int_cell vs then
    mkSeries int64 (map (numeric_cell false) vs)
  else
    mkSeries float64 (map (numeric_cell true) vs).

(** ** coerce_numeric_columns *)

(** The body of [for col in df.columns]. *)
Definition loop_body (df : DataFrame) (col : string) : DataFrame :=
  match getitem df col with
  | None => df
  | Some s =>
      if is_object_dtype s || is_string_dtype s then
        let non_null := mask_and (notna s) (str_len_pos s) in
        if any non_null then
          let converted := to_numeric s in
          if all (map notna_cell (select (values converted) non_null))
          then setitem df col converted
          else df
        else df
      else df
  end.

(** The loop; [df.columns] is read once, before the first iteration. *)
Definition coerce_loop (df : DataFrame) : DataFrame :=
  fold_left loop_body (columns df) df.

(** [try: df = df.convert_dtypes() except Exception: pass] *)
Definition refine (df : DataFrame) : DataFrame :=
  match convert_dtypes pd df with
  | Some df' => df'
  | None => df
  end.

(** The frame [coerce_numeric_columns] returns. *)
Definition coerce_numeric_columns (df : DataFrame) : DataFrame :=
  refine (coerce_loop df).

(** ** The vocabulary of the claims *)

(** Stored as text: the columns the loop looks at. *)
Definition is_text (s : Series) : bool := is_object_dtype s || is_string_dtype s.

(** A cell that is neither missing nor empty: a cell of [non_null]. *)
Definition counted (c : scalar) : bool := notna_cell c && str_len_pos_cell c.

(** The cell is a number after [pd.to_numeric(..., errors="coerce")]. *)
Definition parses (c : scalar) : bool :=
  match to_numeric_cell c with Some _ => true | None => false end.

(** The loop's decision for a column: the three nested tests. *)
Definition adopts (s : Series) : bool :=
  is_text s
  && any (mask_and (notna s) (str_len_pos s))
  && all (map notna_cell (select (values (to_numeric s)) (mask_and (notna s) (str_len_pos s)))).

(** The column after the loop. *)
Definition coerce_series (s : Series) : Series :=
  if adopts s then to_numeric s else s.

Definition coerce_column (c : string * Series) : string * Series :=
  (fst c, coerce_series (snd c)).

(** The number of cells of each column, in column order. *)
Definition column_lengths (df : DataFrame) : list nat :=
  map (fun c => length (values (snd c))) df.

(** The column without its missing and empty cells. *)
Definition drop_uncounted (s : Series) : Series :=
  mkSeries (dtype_of s) (List.filter counted (values s)).

End Frames.

Arguments scalar : clear implicits.
Arguments Series : clear implicits.
Arguments DataFrame : clear implicits.
Arguments pandas : clear implicits.
Arguments Table : clear implicits.

(** ** Frames as objects

    Python passes a frame by reference.  [Store] runs
    [coerce_numeric_columns] on a store of frame objects, so that what
    the call does to its argument can be stated. *)

Module Store.
Section Store.

Context {number : Type} (pd : pandas number).

Definition ref := positive.

Abbreviation store := (gmap ref (DataFrame number)).

(** A computation on the store; [None] is a dangling reference or a
    [KeyError], which the script never produces. *)
Definition St (A : Type) : Type := store -> option (A * store).

Definition ret {A} (a : A) : St A := fun h => Some (a, h).

Definition bind {A B} (m : St A) (k : A -> St B) : St B :=
  fun h => match m h with
           | Some (a, h') => k a h'
           | None => None
           end.

Notation "'let*' x ':=' m 'in' k" := (bind m (fun x => k))
  (at level 10, x name, m at level 100, k at level 200).

Definition load (r : ref) : St (DataFrame number) :=
  fun h => match h !! r with
           | Some df => Some (df, h)
           | None => None
           end.

(** A new object, at a reference not in use. *)
Definition alloc (df : DataFrame number) : St ref :=
  fun h => let r := fresh (dom h) in Some (r, <[r:=df]> h).

(** [df.copy()] (deep by default): a new object with the same columns. *)
Definition df_copy (r : ref) : St ref :=
  let* df := load r in alloc df.

(** [df.columns] *)
Definition df_columns (r : ref) : St (list string) :=
  let* df := load r in ret (columns df).

(** [df[col]] *)
Definition df_getitem (r : ref) (col : string) : St (Series number) :=
  let* df := load r in
  fun h => match getitem df col with
           | Some s => Some (s, h)
           | None => None
           end.

(** [df[col] = s]: the object at [r] is updated in place. *)
Definition df_setitem (r : ref) (col : string) (s : Series number) : St unit :=
  let* df := load r in
  fun h => Some (tt, <[r:=setitem df col s]> h).

(** [df.convert_dtypes()] returns a new frame; [None] when it raises. *)
Definition df_convert_dtypes (r : ref) : St (option ref) :=
  let* df := load r in
  match convert_dtypes pd df with
  | Some df' => let* r' := alloc df' in ret (Some r')
  | None => ret None
  end.

(** [for x in xs: body(x)] *)
Fixpoint for_each {A} (xs : list A) (body : A -> St unit) : St unit :=
  match xs with
  | [] => ret tt
  | x :: rest => let* _ := body x in for_each rest body
  end.

(** The body of [for col in df.columns], on the object [df]. *)
Definition loop_body (df : ref) (col : string) : St unit :=
  let* s := df_getitem df col in
  if is_object_dtype s || is_string_dtype s then
    let non_null := mask_and (notna s) (str_len_pos s) in
    if any non_null then
      let converted := to_numeric pd s in
      if all (map notna_cell (select (values converted) non_null))
      then df_setitem df col converted
      else ret tt
    else ret tt
  else ret tt.

(** [coerce_numeric_columns(df)], with [arg] the reference the caller
    holds.  The local name [df] is rebound twice: to the copy, and to the
    refined frame. *)
Definition coerce_numeric_columns (arg : ref) : St ref :=
  let* df := df_copy arg in
  let* cols := df_columns df in
  let* _ := for_each cols (loop_body df) in
  let* refined := df_convert_dtypes df in
  match refined with
  | Some df' => ret df'
  | None => ret df
  end.

End Store.
End Store.

(** ** Files, databases and the process *)

(** [posixpath.dirname]: the part before the last separator, without
    its trailing separators unless it consists of separators only. *)
Definition is_sep (c : ascii) : bool := Ascii.eqb c "/"%char.

(** [p[:p.rfind("/") + 1]] *)
Fixpoint upto_last_sep (p : string) : string :=
  match p with
  | EmptyString => EmptyString
  | String c rest =>
      match upto_last_sep rest with
      | EmptyString => if is_sep c then String c EmptyString else EmptyString
      | r => String c r
      end
  end.

Fixpoint rstrip_sep (p : string) : string :=
  match p with
  | EmptyString => EmptyString
  | String c rest =>
      match rstrip_sep rest with
      | EmptyString => if is_sep c then EmptyString else String c EmptyString
      | r => String c r
      end
  end.

Definition dirname (p : string) : string :=
  let head := upto_last_sep p in
  match rstrip_sep head with
  | EmptyString => head          (* empty, or separators only *)
  | stripped => stripped
  end.

(** Whether a path has a separator: a bare file name has none. *)
Fixpoint has_sep (p : string) : bool :=
  match p with
  | EmptyString => false
  | String c rest => is_sep c || has_sep rest
  end.

(** The directories [os.makedirs(name)] has to find or make, outermost
    first: [name] and what [dirname] reaches from it. *)
Fixpoint ancestors (fuel : nat) (name : string) : list string :=
  match fuel with
  | O => []
  | S fuel' =>
      let head := dirname name in
      if String.eqb head "" || String.eqb head name then []
      else ancestors fuel' head ++ [head]
  end.

Definition dir_chain (name : string) : list string :=
  ancestors (String.length name) name ++ [name].

(** A path that ends with a separator names a directory or nothing. *)
Definition ends_with_sep (p : string) : bool := negb (String.eqb (rstrip_sep p) p).

(** The entry of the file system a path leads to: trailing separators
    do not count, and separators alone are the root. *)
Definition key (p : string) : string :=
  match rstrip_sep p with
  | EmptyString => "/"
  | q => q
  end.

(** The names [sqlite3.connect] does not take for a file: the empty name
    is a private temporary database and [":memory:"] a database in
    memory; both are empty when opened and gone when closed. *)
Definition special_name (p : string) : bool :=
  String.eqb p "" || String.eqb p ":memory:".




Inductive if_exists_policy := fail_ | replace_ | append_.

(** What [print] writes, one constructor per format string of [main]. *)
Inductive line :=
  | reading_csv (csv_path : string)
  | rows_columns (rows cols : nat)
  | inferred_dtypes
  | dtype_line (name : string) (d : dtype)
  | writing_db (db_path table_name : string)
  | schema_header
  | schema_line (name coltype : string)
  | row_count (table_name : string) (count : nat)
  | done_.

Inductive result (A : Type) :=
  | Ok (a : A)
  | Raise (e : exn).
Arguments Ok {A} a.
Arguments Raise {A} e.

(** [parser.parse_args(argv)] *)
Record Args := mkArgs { csv_path : string; db_path : string; table_name : string }.

Definition default_args : Args :=
  mkArgs "team_data_combined/plays.csv" "plays.db" "plays".

Section Script.

Context {number : Type} (pd : pandas number).

(** A directory, a text file or a database file.  The file system maps
    plain paths to them.  There are no links and no permissions: every
    directory can be written to.  No regular file is called
    [":memory:"]. *)
Inductive node :=
  | Dir
  | TextFile (content : string)
  | SqliteFile (tables : gmap string (Table number)).

Record World := mkWorld {
  fs : gmap string node;
  stdout : list line
}.

(** What is at an entry.  The current directory and the root always
    exist. *)
Definition entry (w : World) (q : string) : option node :=
  if String.eqb q "." || String.eqb q "/" then Some Dir else fs w !! q.

Definition dir_only (n : option node) : option node :=
  match n with
  | Some Dir => Some Dir
  | _ => None
  end.

(** What a path names, as [os.path.exists], [open] and [mkdir] see it:
    nothing for the empty path, a directory or nothing for a path that
    ends with a separator. *)
Definition lookup_path (w : World) (p : string) : option node :=
  if String.eqb p "" then None
  else if ends_with_sep p || String.eqb p ":memory:" then dir_only (entry w (key p))
  else entry w (key p).

Definition M (A : Type) : Type := World -> result A * World.

Definition ret {A} (a : A) : M A := fun w => (Ok a, w).

Definition raise {A} (e : exn) : M A := fun w => (Raise e, w).

Definition bind {A B} (m : M A) (k : A -> M B) : M B :=
  fun w => match m w with
           | (Ok a, w') => k a w'
           | (Raise e, w') => (Raise e, w')
           end.

Notation "'let*' x ':=' m 'in' k" := (bind m (fun x => k))
  (at level 10, x name, m at level 100, k at level 200).
Notation "m ';;' k" := (bind m (fun _ => k))
  (at level 100, right associativity).

Fixpoint for_each {A} (xs : list A) (body : A -> M unit) : M unit :=
  match xs with
  | [] => ret tt
  | x :: rest => body x ;; for_each rest body
  end.

(** The outcome of a call that does not change the world. *)
Definition of_result {A} (r : result A) : M A := fun w => (r, w).

Definition print (l : line) : M unit :=
  fun w => (Ok tt, mkWorld (fs w) (stdout w ++ [l])).

(** [os.path.exists(p)] *)
Definition os_path_exists (p : string) : M bool :=
  fun w => (Ok (bool_decide (is_Some (lookup_path w p))), w).

(** Reading a file as text, as [pd.read_csv] does before it parses. *)
Definition read_text (p : string) : M string :=
  fun w => match lookup_path w p with
           | Some (TextFile content) => (Ok content, w)
           | Some Dir => (Raise (IsADirectoryError p), w)
           | Some (SqliteFile _) => (Raise UnicodeDecodeError, w)
           | None => (Raise (FileNotFoundError p), w)
           end.

(** One step of [os.makedirs(..., exist_ok=True)]: a directory is kept,
    a missing one is made, anything else is in the way. *)
Definition ensure_dir (p : string) : M unit :=
  fun w =>
    if String.eqb p "" then (Raise (FileNotFoundError p), w)
    else match lookup_path w p with
         | Some Dir => (Ok tt, w)
         | Some _ => (Raise (FileExistsError p), w)
         | None =>
             if ends_with_sep p && bool_decide (is_Some (entry w (key p)))
             then (Raise (FileExistsError p), w)
             else (Ok tt, mkWorld (<[key p:=Dir]> (fs w)) (stdout w))
         end.

(** [os.makedirs(name, exist_ok=True)] *)
Definition os_makedirs (name : string) : M unit :=
  for_each (dir_chain name) ensure_dir.

(** [os.path.dirname(p) or "."] *)
Definition parent_dir (p : string) : string :=
  let d := dirname p in if String.eqb d "" then "." else d.

(** [sqlite3.connect(p)] followed by the first statement: the tables of
    the database at [p], none for a file that does not exist yet and for
    the special names. *)
Definition sqlite3_connect (p : string) : M (gmap string (Table number)) :=
  fun w =>
    if special_name p then (Ok ∅, w)
    else if ends_with_sep p then
      (Raise (OperationalError "unable to open database file"), w)
    else match lookup_path w (parent_dir p) with
         | Some Dir =>
             match lookup_path w p with
             | None => (Ok ∅, w)
             | Some (SqliteFile tables) => (Ok tables, w)
             | Some Dir => (Raise (OperationalError "unable to open database file"), w)
             | Some (TextFile _) => (Raise (DatabaseError "file is not a database"), w)
             end
         | _ => (Raise (OperationalError "unable to open database file"), w)
         end.

(** The world once the connection to [p] is left with [tables] made
    permanent: the file holds them, unless the name is special. *)
Definition committed (p : string) (tables : gmap string (Table number)) (w : World) : World :=
  if special_name p then w
  else mkWorld (<[p:=SqliteFile tables]> (fs w)) (stdout w).

(** Leaving [with conn:]: a commit, or after an exception a rollback to
    what the statements before it have made permanent. *)
Definition commit (p : string) (tables : gmap string (Table number)) : M unit :=
  fun w => (Ok tt, committed p tables w).

(** Row [i] of a frame. *)
Definition row (df : DataFrame number) (i : nat) : list (scalar number) :=
  map (fun c => nth i (values (snd c)) NA) df.

(** The table [to_sql(..., index=False)] makes of a frame. *)
Definition table_of (df : DataFrame number) : Table number :=
  mkTable (map (fun c => (fst c, sql_type pd (snd c))) df)
          (map (row df) (seq 0 (len df))).

(** [CREATE TABLE] and then [INSERT], each of which may fail: what the
    call raises, if it does, and the tables it leaves.  A table that was
    created stays, without rows, when the insertion fails. *)
Definition create_and_insert (df : DataFrame number) (name : string)
    (tables : gmap string (Table number)) : result unit * gmap string (Table number) :=
  match sql_create_error pd tables name df with
  | Some e => (Raise e, tables)
  | None =>
      let created := <[name:=mkTable (schema (table_of df)) []]> tables in
      match sql_insert_error pd created name df with
      | Some e => (Raise e, created)
      | None => (Ok tt, <[name:=table_of df]> tables)
      end
  end.

(** [df.to_sql(table_name, conn, if_exists=..., index=False)] on the
    tables of the connection: what it raises, if it does, and the tables
    it leaves.  Under ["replace"] the old table is dropped before the new
    one is created, and stays dropped when the creation fails. *)
Definition to_sql (df : DataFrame number) (name : string) (policy : if_exists_policy)
    (tables : gmap string (Table number)) : result unit * gmap string (Table number) :=
  match tables !! name, policy with
  | None, _ => create_and_insert df name tables
  | Some _, replace_ => create_and_insert df name (delete name tables)
  | Some _, fail_ => (Raise (ValueError "Table already exists."), tables)
  | Some old, append_ =>
      if bool_decide (map fst (schema old) = columns df) then
        match sql_insert_error pd tables name df with
        | Some e => (Raise e, tables)
        | None =>
            (Ok tt, <[name:=mkTable (schema old) (rows old ++ rows (table_of df))]> tables)
        end
      else (Raise (OperationalError "table has no such column"), tables)
  end.

(** ** load_csv, write_sqlite, main *)

Definition load_csv (csv_path : string) : M (DataFrame number) :=
  let* text := read_text csv_path in
  match read_csv pd text with
  | Some df => ret (coerce_numeric_columns pd df)
  | None => raise ParserError
  end.

Definition write_sqlite (df : DataFrame number) (db_path : string)
    (table_name : string) (if_exists : if_exists_policy) : M unit :=
  os_makedirs (parent_dir db_path) ;;
  let* conn := sqlite3_connect db_path in
  let outcome := to_sql df table_name if_exists conn in
  commit db_path (snd outcome) ;;
  of_result (fst outcome).

(** The rows of [PRAGMA table_info] for the table [t]: one per column,
    here its index, name and declared type; none for a table that does
    not exist. *)
Definition table_info (tables : gmap string (Table number)) (t : string)
    : list (nat * string * string) :=
  match tables !! t with
  | Some tbl => imap (fun i c => (i, fst c, snd c)) (schema tbl)
  | None => []
  end.

(** [cur.execute(f"PRAGMA table_info({text});")] and [fetchall]: the
    text is part of the statement, and the table is the one SQLite reads
    in it. *)
Definition pragma_table_info (tables : gmap string (Table number)) (text : string)
    : result (list (nat * string * string)) :=
  match sql_pragma_name pd text with
  | None => Raise (OperationalError "syntax error")
  | Some t => Ok (table_info tables t)
  end.

(** [cur.execute(f"SELECT COUNT( * ) FROM {text};")] and [fetchone] *)
Definition select_count (tables : gmap string (Table number)) (text : string) : result nat :=
  match sql_from_name pd text with
  | None => Raise (OperationalError "syntax error")
  | Some t =>
      match tables !! t with
      | Some tbl => Ok (length (rows tbl))
      | None => Raise (OperationalError "no such table")
      end
  end.

(** The verification block of [main]: what it read back. *)
Definition verify (db_path table_name : string) : M (list (nat * string * string) * nat) :=
  let* conn := sqlite3_connect db_path in
  let* cols := of_result (pragma_table_info conn table_name) in
  print schema_header ;;
  for_each cols (fun c => print (schema_line (snd (fst c)) (snd c))) ;;
  let* count := of_result (select_count conn table_name) in
  print (row_count table_name count) ;;
  ret (cols, count).

(** [main], after the arguments are parsed.  [write_sqlite] is called
    without [if_exists], which is then ["replace"]. *)
Definition main (args : Args) : M Z :=
  let* found := os_path_exists (csv_path args) in
  if negb found then
    raise (SystemExit ("CSV not found: " ++ csv_path args))
  else
    print (reading_csv (csv_path args)) ;;
    let* df := load_csv (csv_path args) in
    print (rows_columns (len df) (length (columns df))) ;;
    print inferred_dtypes ;;
    for_each df (fun c => print (dtype_line (fst c) (dtype_of (snd c)))) ;;
    print (writing_db (db_path args) (table_name args)) ;;
    write_sqlite df (db_path args) (table_name args) replace_ ;;
    let* _ := verify (db_path args) (table_name args) in
    print done_ ;;
    ret 0%Z.

(** What [main] has printed when it calls [write_sqlite], for the frame
    [df] it loaded. *)
Definition before_write (args : Args) (df : DataFrame number) : list line :=
  [reading_csv (csv_path args);
   rows_columns (len df) (length (columns df));
   inferred_dtypes]
  ++ map (fun c => dtype_line (fst c) (dtype_of (snd c))) df
  ++ [writing_db (db_path args) (table_name args)].

(** What the verification block prints when it has read [cols] and
    [count]. *)
Definition schema_report (cols : list (nat * string * string)) : list line :=
  schema_header :: map (fun c => schema_line (snd (fst c)) (snd c)) cols.

Definition after_write (table_name : string) (cols : list (nat * string * string))
    (count : nat) : list line :=
  schema_report cols ++ [row_count table_name count; done_].

(** The status of the process under [raise SystemExit(main())]: the
    returned integer, or 1 for an exception and for [SystemExit] with a
    message. *)
Definition exit_status (r : result Z) : Z :=
  match r with
  | Ok n => n
  | Raise _ => 1%Z
  end.

End Script.

(** ** A small instance of the library

    [Ref.pd] fills the parameters with a small stand-in, so that the
    script can be run on examples.  It follows the documented behaviour
    of the libraries on the inputs it covers and nothing else: numeric
    literals are signed decimal integers and decimals, a CSV text is
    lines of comma-separated fields without quoting, a table is named
    by an identifier or by an identifier in brackets or double quotes. *)

Module Ref.

Inductive num :=
  | int (z : Z)
  | float (q : Q).

Definition digit (c : ascii) : option Z :=
  let n := nat_of_ascii c in
  if (48 <=? n)%nat && (n <=? 57)%nat then Some (Z.of_nat (n - 48)) else None.

(** The longest prefix of digits: its value after [acc], how many digits
    were read, and what follows. *)
Fixpoint read_digits (s : string) (acc : Z) (n : nat) : Z * nat * string :=
  match s with
  | EmptyString => (acc, n, EmptyString)
  | String c rest =>
      match digit c with
      | Some d => read_digits rest (10 * acc + d)%Z (S n)
      | None => (acc, n, s)
      end
  end.

Definition read_sign (s : string) : bool * string :=
  match s with
  | String "-"%char rest => (true, rest)
  | String "+"%char rest => (false, rest)
  | _ => (false, s)
  end.

Definition signed (neg : bool) (z : Z) : Z := if neg then (- z)%Z else z.

Definition parse (s : string) : option num :=
  let '(neg, s1) := read_sign s in
  let '(ip, ni, r1) := read_digits s1 0%Z 0%nat in
  if Nat.eqb ni 0 then None
  else match r1 with
       | EmptyString => Some (int (signed neg ip))
       | String "."%char r2 =>
           let '(fp, nf, r3) := read_digits r2 ip 0%nat in
           if Nat.eqb nf 0 || negb (String.eqb r3 "") then None
           else Some (float (Qred (Qmake (signed neg fp) (Pos.pow 10 (Pos.of_nat nf)))))
       | _ => None
       end.

Definition is_int (x : num) : bool :=
  match x with int _ => true | float _ => false end.

Definition as_float (x : num) : num :=
  match x with int z => float (Qmake z 1) | float q => float q end.

Definition of_bool (b : bool) : num := int (if b then 1 else 0)%Z.

(** Whether a number is a whole number, and then which. *)
Definition whole (x : num) : option Z :=
  match x with
  | int z => Some z
  | float q => if Pos.eqb (Qden (Qred q)) 1 then Some (Qnum (Qred q)) else None
  end.

Definition cell_is (p : scalar num -> bool) (c : scalar num) : bool :=
  match c with NA => true | _ => p c end.

Definition is_str_cell (c : scalar num) : bool :=
  match c with Str _ => true | _ => false end.

Definition is_whole_cell (c : scalar num) : bool :=
  match c with Num x => bool_decide (is_Some (whole x)) | _ => false end.

Definition is_num_cell (c : scalar num) : bool :=
  match c with Num _ => true | _ => false end.

Definition to_whole_cell (c : scalar num) : scalar num :=
  match c with
  | Num x => match whole x with Some z => Num (int z) | None => c end
  | _ => c
  end.

Definition to_float_cell (c : scalar num) : scalar num :=
  match c with Num x => Num (as_float x) | _ => c end.

(** [convert_dtypes] on one column, with its default options: the best
    nullable dtype that holds every value. *)
Definition refine_series (s : Series num) : Series num :=
  let vs := values s in
  let some := existsb notna_cell vs in
  match dtype_of s with
  | object_ =>
      if negb some then s
      else if forallb (cell_is is_str_cell) vs then mkSeries string_ vs
      else if forallb (cell_is is_bool_cell) vs then mkSeries boolean vs
      else if forallb (cell_is is_whole_cell) vs then mkSeries Int64 (map to_whole_cell vs)
      else if forallb (cell_is is_num_cell) vs then mkSeries Float64 (map to_float_cell vs)
      else s
  | int64 => mkSeries Int64 vs
  | float64 | Float64 =>
      if forallb (cell_is is_whole_cell) vs then mkSeries Int64 (map to_whole_cell vs)
      else mkSeries Float64 vs
  | bool_ => mkSeries boolean vs
  | string_ | Int64 | boolean => s
  end.

Definition convert_dtypes (df : DataFrame num) : option (DataFrame num) :=
  Some (map (fun c => (fst c, refine_series (snd c))) df).

(** Fields of a line, and lines of a text. *)
Fixpoint split_on (sep : ascii) (s : string) : list string :=
  match s with
  | EmptyString => [EmptyString]
  | String c rest =>
      match split_on sep rest with
      | [] => [String c EmptyString]
      | field :: fields =>
          if Ascii.eqb c sep then EmptyString :: field :: fields
          else String c field :: fields
      end
  end.

Definition csv_cell (field : string) : scalar num :=
  if String.eqb field "" then NA else Str field.

Definition numeric_literal (c : scalar num) : bool :=
  match c with
  | NA => true
  | Str s => bool_decide (is_Some (parse s))
  | _ => false
  end.

Definition stub : pandas num :=
  mkPandas parse is_int as_float of_bool convert_dtypes (fun _ => None) (fun _ => "TEXT")
           (fun _ _ _ => None) (fun _ _ _ => None) (fun _ => None) (fun _ => None).

(** A column read from text: numeric when every field that is present is
    a numeric literal, text otherwise. *)
Definition infer_column (fields : list string) : Series num :=
  let s := mkSeries object_ (map csv_cell fields) in
  if existsb notna_cell (values s) && forallb numeric_literal (values s)
  then to_numeric stub s
  else s.

Definition read_csv (text : string) : option (DataFrame num) :=
  match List.filter (fun l => negb (String.eqb l "")) (split_on "010"%char text) with
  | [] => None
  | header :: body =>
      let names := split_on ","%char header in
      let records := map (split_on ","%char) body in
      if forallb (fun r => Nat.eqb (length r) (length names)) records then
        Some (imap (fun i name => (name, infer_column (map (fun r => nth i r "") records)))
                   names)
      else None
  end.

(** The declared type of a column in the SQLite dialect of [to_sql]. *)
Definition sql_type (s : Series num) : string :=
  match dtype_of s with
  | int64 | Int64 => "INTEGER"
  | float64 | Float64 => "REAL"
  | bool_ | boolean => "INTEGER"
  | object_ | string_ => "TEXT"
  end.

(** [to_sql] quotes the names it is given; it refuses an empty table
    name, and SQLite a table with two columns of one name. *)
Definition sql_create_error (tables : gmap string (Table num)) (name : string)
    (df : DataFrame num) : option exn :=
  if String.eqb name "" then Some (ValueError "Empty table or column name specified")
  else if bool_decide (NoDup (columns df)) then None
  else Some (OperationalError "duplicate column name").

Definition sql_insert_error (tables : gmap string (Table num)) (name : string)
    (df : DataFrame num) : option exn := None.

Definition ident_char (c : ascii) : bool :=
  let n := nat_of_ascii c in
  ((65 <=? n)%nat && (n <=? 90)%nat) || ((97 <=? n)%nat && (n <=? 122)%nat)
  || ((48 <=? n)%nat && (n <=? 57)%nat) || Ascii.eqb c "_"%char.

Fixpoint all_chars (p : ascii -> bool) (s : string) : bool :=
  match s with
  | EmptyString => true
  | String c rest => p c && all_chars p rest
  end.

(** An identifier that needs no quoting. *)
Definition is_identifier (s : string) : bool :=
  match s with
  | EmptyString => false
  | String c _ => negb (bool_decide (is_Some (digit c))) && all_chars ident_char s
  end.

(** [s] without its last character, when that is [close]. *)
Fixpoint strip_last (close : ascii) (s : string) : option string :=
  match s with
  | EmptyString => None
  | String c rest =>
      match rest with
      | EmptyString => if Ascii.eqb c close then Some EmptyString else None
      | _ => match strip_last close rest with
             | Some r => Some (String c r)
             | None => None
             end
      end
  end.

Definition quoted_name (open close : ascii) (s : string) : option string :=
  match s with
  | EmptyString => None
  | String c rest =>
      if Ascii.eqb c open then
        match strip_last close rest with
        | Some inner =>
            if String.eqb inner EmptyString || negb (all_chars (fun x => negb (Ascii.eqb x close)) inner)
            then None else Some inner
        | None => None
        end
      else None
  end.

(** The table a text names where SQLite reads a table name: [plays],
    [[plays]] and the name in double quotes are the table plays; a text
    with a space in it is not a name. *)
Definition sql_name (s : string) : option string :=
  if is_identifier s then Some s
  else match quoted_name "["%char "]"%char s with
       | Some t => Some t
       | None => quoted_name "034"%char "034"%char s
       end.

Definition pd : pandas num :=
  mkPandas parse is_int as_float of_bool convert_dtypes read_csv sql_type
           sql_create_error sql_insert_error sql_name sql_name.

(** A world for the scenarios: an input file with three columns and two
    rows, and nothing else. *)
Definition newline : string := String "010"%char EmptyString.

Definition plays_csv : string :=
  String.concat newline ["play,yards,note"; "1,2.5,x"; "2,3,"; ""].

Definition empty_world : @World num := mkWorld ∅ [].

Definition world_with_input : @World num :=
  mkWorld {[ "team_data_combined/plays.csv" := TextFile plays_csv ]} [].


(** A world in which the input path is a directory. *)
Definition directory_world : @World num :=
  mkWorld {[ "team_data_combined/plays.csv" := Dir ]} [].

(** A world with a database that has the table already, and another. *)
Definition old_tables : gmap string (@Table num) :=
  {[ "plays" := mkTable [("old", "TEXT")] [[Str "kept"]];
     "teams" := mkTable [("name", "TEXT")] [[Str "a"]] ]}.

Definition world_with_db : @World num :=
  mkWorld {[ "plays.db" := SqliteFile old_tables;
             "team_data_combined/plays.csv" := TextFile plays_csv ]} [].

Definition nested_args : Args :=
  mkArgs "team_data_combined/plays.csv" "out/db/plays.db" "plays".

(** The default paths with a table name in brackets, and with a table
    name of two words. *)
Definition bracket_args : Args :=
  mkArgs "team_data_combined/plays.csv" "plays.db" "[plays]".


(** The columns of the scenarios. *)
Definition all_numbers : Series num := mkSeries object_ [Str "1"; Str "2"; Str "3"].
Definition one_word : Series num := mkSeries object_ [Str "1"; Str "2"; Str "x"].
Definition one_gap : Series num := mkSeries object_ [Str "1"; Str ""; Str "3"].
Definition all_gaps : Series num := mkSeries object_ [Str ""; NA].

(** A frame of three columns: one that the loop converts, one that it
    leaves as text and one that is typed already. *)
Definition three_columns : DataFrame num :=
  [("a", one_gap);
   ("b", one_word);
   ("c", mkSeries int64 [Num (int 7); Num (int 8); Num (int 9)])].

End Ref.

(** * Properties *)

Open Scope list_scope.

(** ** The column loop *)

Section FrameFacts.

Context {number : Type} (pd : pandas number).

Implicit Types (c : scalar number) (s : Series number) (df pre suf : DataFrame number).

Lemma counted_false c : counted c = false -> c = NA \/ c = Str "".
Proof.
  destruct c as [|t| |]; cbn; auto; try discriminate.
  destruct (String.eqb_spec t ""); subst; auto; discriminate.
Qed.

Lemma parses_uncounted c : counted c = false -> to_numeric_cell pd c = None.
Proof. intros [->| ->]%counted_false; reflexivity. Qed.

(** The mask test of the loop, cell by cell. *)
Lemma select_notna (f : scalar number -> scalar number) (vs : list (scalar number)) :
  (forall c, In c vs -> notna_cell (f c) = parses pd c) ->
  all (map notna_cell
         (select (map f vs) (mask_and (map notna_cell vs) (map str_len_pos_cell vs))))
  = forallb (fun c => implb (counted c) (parses pd c)) vs.
Proof.
  induction vs as [|c vs IH]; intros Hf; [reflexivity|].
  assert (IH' := IH (fun c' H => Hf c' (or_intror H))). clear IH.
  assert (Hc := Hf c (or_introl eq_refl)).
  unfold select, mask_and, all in *. cbn [map combine List.filter forallb fst snd].
  fold (counted c). destruct (counted c); cbn [map forallb implb fst].
  - now rewrite Hc, IH'.
  - exact IH'.
Qed.

Lemma any_counted (vs : list (scalar number)) :
  any (mask_and (map notna_cell vs) (map str_len_pos_cell vs)) = existsb counted vs.
Proof.
  unfold any, mask_and. induction vs as [|c vs IH]; [reflexivity|].
  cbn. fold (counted c). now rewrite IH.
Qed.

Lemma to_numeric_values s :
  exists f, values (to_numeric pd s) = map f (values s)
            /\ forall c, In c (values s) -> notna_cell (f c) = parses pd c.
Proof.
  unfold to_numeric.
  destruct (_ && forallb is_bool_cell (values s)) eqn:Hb.
  - exists (fun c => c). split; [now rewrite map_id|].
    apply andb_true_iff in Hb as [_ Hb]. rewrite forallb_forall in Hb.
    intros c Hc. specialize (Hb c Hc). now destruct c.
  - destruct (forallb (is_int_cell pd) (values s));
      eexists; (split; [reflexivity|]); intros c _;
      unfold numeric_cell, parses; now destruct (to_numeric_cell pd c).
Qed.

(** The decision of the loop in words: a text column with at least one
    cell that counts, all of which parse. *)
Lemma adopts_spec s :
  adopts pd s
  = is_text s && existsb counted (values s)
    && forallb (fun c => implb (counted c) (parses pd c)) (values s).
Proof.
  unfold adopts, notna, str_len_pos. rewrite any_counted.
  destruct (to_numeric_values s) as (f & -> & Hf).
  now rewrite select_notna.
Qed.

Lemma loop_body_spec df col :
  loop_body pd df col
  = match getitem df col with
    | Some s => if adopts pd s then setitem df col (to_numeric pd s) else df
    | None => df
    end.
Proof.
  unfold loop_body, adopts, is_text. destruct (getitem df col) as [s|]; [|reflexivity].
  destruct (is_object_dtype s || is_string_dtype s); [|reflexivity].
  cbn [andb]. destruct (any _); [|reflexivity]. cbn [andb]. reflexivity.
Qed.

(** *** The loop on a frame with distinct column names *)

Lemma getitem_Some df col : col ∈ columns df -> is_Some (getitem df col).
Proof.
  induction df as [|[n s] df IH]; cbn; [by intros ?%elem_of_nil|].
  intros [->|Hn]%elem_of_cons.
  - rewrite String.eqb_refl. eauto.
  - destruct (String.eqb n col); eauto.
Qed.

Lemma getitem_app_r pre suf col :
  col ∉ columns pre -> getitem (pre ++ suf) col = getitem suf col.
Proof.
  induction pre as [|[n s] pre IH]; [reflexivity|]. cbn. intros Hn.
  apply not_elem_of_cons in Hn as [Hne Hn].
  destruct (String.eqb_spec n col); [congruence|auto].
Qed.

Lemma setitem_app_r pre suf col s :
  col ∉ columns pre -> setitem (pre ++ suf) col s = pre ++ setitem suf col s.
Proof.
  induction pre as [|[n s'] pre IH]; [reflexivity|]. cbn. intros Hn.
  apply not_elem_of_cons in Hn as [Hne Hn].
  destruct (String.eqb_spec n col); [congruence|]. now rewrite IH.
Qed.

Lemma columns_setitem df col s : columns (setitem df col s) = columns df.
Proof.
  unfold columns. induction df as [|[n s'] df IH]; [reflexivity|]. cbn.
  destruct (String.eqb n col); cbn; [reflexivity|]. now rewrite IH.
Qed.

Lemma columns_loop_body df col : columns (loop_body pd df col) = columns df.
Proof.
  rewrite loop_body_spec. destruct (getitem df col); [|reflexivity].
  destruct (adopts pd s); [apply columns_setitem|reflexivity].
Qed.

Lemma coerce_loop_from pre suf :
  NoDup (columns (pre ++ suf)) ->
  fold_left (loop_body pd) (columns suf) (pre ++ suf) = pre ++ map (coerce_column pd) suf.
Proof.
  revert pre. induction suf as [|[n s] suf IH]; intros pre Hnd; [reflexivity|].
  cbn [columns map fold_left fst].
  assert (Hn : n ∉ columns pre).
  { unfold columns in *. rewrite map_app in Hnd. apply NoDup_app in Hnd as (_ & Hd & _).
    intros Hin. apply (Hd n Hin). cbn. apply elem_of_cons. now left. }
  assert (Hstep : loop_body pd (pre ++ (n, s) :: suf) n
                  = (pre ++ [coerce_column pd (n, s)]) ++ suf).
  { rewrite loop_body_spec, getitem_app_r by assumption. cbn. rewrite String.eqb_refl.
    unfold coerce_column, coerce_series. cbn [fst snd].
    destruct (adopts pd s).
    - rewrite setitem_app_r by assumption. cbn. rewrite String.eqb_refl.
      now rewrite <- app_assoc.
    - now rewrite <- app_assoc. }
  rewrite Hstep. fold (columns suf). rewrite IH.
  - now rewrite <- app_assoc.
  - unfold columns in *. rewrite !map_app in *. cbn in *. now rewrite <- app_assoc.
Qed.

(** With distinct names the loop treats each column on its own. *)
Lemma coerce_loop_map df :
  NoDup (columns df) -> coerce_loop pd df = map (coerce_column pd) df.
Proof. intros Hnd. exact (coerce_loop_from [] df Hnd). Qed.

Lemma getitem_map_coerce df col :
  getitem (map (coerce_column pd) df) col = coerce_series pd <$> getitem df col.
Proof.
  induction df as [|[n s] df IH]; [reflexivity|]. cbn.
  destruct (String.eqb n col); [reflexivity|exact IH].
Qed.

Lemma columns_fold_loop_body (cols : list string) df :
  columns (fold_left (loop_body pd) cols df) = columns df.
Proof.
  revert df. induction cols as [|c cols IH]; intros df; [reflexivity|].
  cbn [fold_left]. now rewrite IH, columns_loop_body.
Qed.

Lemma columns_coerce_loop df : columns (coerce_loop pd df) = columns df.
Proof. apply columns_fold_loop_body. Qed.

Lemma getitem_coerce_loop df name s :
  NoDup (columns df) -> getitem df name = Some s ->
  getitem (coerce_loop pd df) name = Some (coerce_series pd s).
Proof.
  intros Hnd Hs. rewrite coerce_loop_map, getitem_map_coerce, Hs by assumption.
  reflexivity.
Qed.

Lemma adopts_true_iff s :
  adopts pd s = true <->
  is_text s = true
  /\ (exists c, In c (values s) /\ counted c = true)
  /\ (forall c, In c (values s) -> counted c = true -> parses pd c = true).
Proof.
  rewrite adopts_spec, !andb_true_iff, existsb_exists, forallb_forall.
  split.
  - intros ((Ht & Hex) & Hall). repeat split; try assumption.
    intros c Hin Hc. specialize (Hall c Hin). now rewrite Hc in Hall.
  - intros (Ht & Hex & Hall). repeat split; try assumption.
    intros c Hin. specialize (Hall c Hin).
    destruct (counted c); [now rewrite Hall|reflexivity].
Qed.

Lemma adopts_drop_uncounted s : adopts pd (drop_uncounted s) = adopts pd s.
Proof.
  rewrite !adopts_spec. unfold drop_uncounted, is_text, is_object_dtype, is_string_dtype.
  cbn [dtype_of values]. f_equal; [f_equal|].
  - induction (values s) as [|c vs IH]; [reflexivity|]. cbn.
    destruct (counted c) eqn:Hc; cbn; now rewrite ?Hc, IH.
  - induction (values s) as [|c vs IH]; [reflexivity|]. cbn.
    destruct (counted c) eqn:Hc; cbn; now rewrite ?Hc, IH.
Qed.

(** After conversion a cell that did not count is null. *)
Lemma to_numeric_uncounted s i c :
  values s !! i = Some c -> counted c = false ->
  values (to_numeric pd s) !! i = Some NA.
Proof.
  intros Hi Hc. unfold to_numeric.
  destruct (_ && forallb is_bool_cell (values s)) eqn:Hb.
  - apply andb_true_iff in Hb as [_ Hb]. rewrite forallb_forall in Hb.
    assert (Hin : In c (values s)) by (apply list_elem_of_In; eapply list_elem_of_lookup_2; eauto).
    specialize (Hb c Hin). destruct (counted_false c Hc); subst; discriminate.
  - destruct (forallb (is_int_cell pd) (values s)); cbn [values];
      rewrite list_lookup_fmap, Hi; cbn; unfold numeric_cell;
      now rewrite (parses_uncounted c Hc).
Qed.

(** No text is left in a converted column: the conversion is of the
    whole column. *)
Lemma to_numeric_no_text s c :
  In c (values (to_numeric pd s)) -> forall t, c <> Str t.
Proof.
  unfold to_numeric.
  destruct (_ && forallb is_bool_cell (values s)) eqn:Hb.
  - apply andb_true_iff in Hb as [_ Hb]. rewrite forallb_forall in Hb.
    cbn. intros Hin t ->. now specialize (Hb _ Hin).
  - destruct (forallb (is_int_cell pd) (values s)); cbn [values];
      intros (c0 & <- & _)%in_map_iff t; unfold numeric_cell;
      now destruct (to_numeric_cell pd c0).
Qed.

(** *** The claims about the heuristic *)

Lemma to_numeric_not_text s : is_text (to_numeric pd s) = false.
Proof.
  unfold to_numeric. destruct (_ && _); [reflexivity|]. now destruct (forallb _ _).
Qed.

(** C1, amended.  The loop replaces a text column by its numeric
    conversion exactly when the column has at least one cell that is
    neither missing nor empty and every such cell parses as a number.
    The column after the loop is either that conversion, whole and
    without any text in it, or the column as it was, dtype and values.
    It is the column as it was when a cell that counts fails to parse,
    and also when no cell counts. *)
Theorem coercion_all_or_nothing df name s :
  NoDup (columns df) -> getitem df name = Some s -> is_text s = true ->
  (getitem (coerce_loop pd df) name = Some (to_numeric pd s) <->
     (exists c, In c (values s) /\ counted c = true)
     /\ (forall c, In c (values s) -> counted c = true -> parses pd c = true))
  /\ (getitem (coerce_loop pd df) name = Some (to_numeric pd s)
      \/ getitem (coerce_loop pd df) name = Some s)
  /\ (forall c, In c (values (to_numeric pd s)) -> forall t, c <> Str t)
  /\ ((exists c, In c (values s) /\ counted c = true /\ parses pd c = false) ->
        getitem (coerce_loop pd df) name = Some s)
  /\ ((forall c, In c (values s) -> counted c = false) ->
        getitem (coerce_loop pd df) name = Some s).
Proof.
  intros Hnd Hget Htext.
  rewrite (getitem_coerce_loop df name s Hnd Hget). unfold coerce_series.
  assert (Hdiff : Some s <> Some (to_numeric pd s)).
  { intros [= E]. rewrite E, to_numeric_not_text in Htext. discriminate. }
  destruct (adopts pd s) eqn:Ha.
  - assert (Ha' := Ha). apply adopts_true_iff in Ha' as (_ & Hsome & Hall).
    split; [tauto|]. split; [now left|]. split; [apply to_numeric_no_text|]. split.
    + intros (c & Hin & Hc & Hp). rewrite (Hall c Hin Hc) in Hp. discriminate.
    + intros Hnone. destruct Hsome as (c & Hin & Hc). rewrite (Hnone c Hin) in Hc.
      discriminate.
  - split; [|split; [now right|split; [apply to_numeric_no_text|split; reflexivity]]].
    split; [intros E; destruct (Hdiff E)|].
    intros [Hsome Hall]. assert (adopts pd s = true) by (apply adopts_true_iff; auto).
    congruence.
Qed.

(** C2.  Missing and empty cells do not count against adoption: the
    decision for a column is the decision for the column without them.
    In an adopted column they are null.  The column "1", "", "3" comes
    out of [coerce_numeric_columns] as the integers 1 and 3 around a
    null (the integer type is the refinement's choice, taken here from
    the instance [Ref.pd]). *)
Theorem missing_cells_do_not_block df name s :
  adopts pd (drop_uncounted s) = adopts pd s
  /\ (NoDup (columns df) -> getitem df name = Some s -> adopts pd s = true ->
      exists s', getitem (coerce_loop pd df) name = Some s'
                 /\ forall i c, values s !! i = Some c -> counted c = false ->
                                values s' !! i = Some NA)
  /\ adopts Ref.pd Ref.one_gap = true
  /\ coerce_numeric_columns Ref.pd [("c", Ref.one_gap)]
     = [("c", mkSeries Int64 [Num (Ref.int 1); NA; Num (Ref.int 3)])].
Proof.
  split; [apply adopts_drop_uncounted|]. split; [|split; reflexivity].
  intros Hnd Hget Ha. exists (to_numeric pd s). split.
  - rewrite (getitem_coerce_loop df name s Hnd Hget). unfold coerce_series. now rewrite Ha.
  - intros i c. apply to_numeric_uncounted.
Qed.

(** C9.  A column in which every cell is missing or empty is not
    adopted: it keeps its dtype and its values. *)
Theorem all_empty_column_not_promoted df name s :
  NoDup (columns df) -> getitem df name = Some s ->
  (forall c, In c (values s) -> counted c = false) ->
  adopts pd s = false /\ getitem (coerce_loop pd df) name = Some s.
Proof.
  intros Hnd Hget Hempty.
  assert (Ha : adopts pd s = false).
  { destruct (adopts pd s) eqn:Ha; [|reflexivity].
    apply adopts_true_iff in Ha as (_ & (c & Hin & Hc) & _).
    rewrite (Hempty c Hin) in Hc. discriminate. }
  split; [exact Ha|].
  rewrite (getitem_coerce_loop df name s Hnd Hget). unfold coerce_series. now rewrite Ha.
Qed.

End FrameFacts.

(** The scenarios of the specification, run on [Ref.pd]. *)
Example scenario_all_numbers :
  coerce_numeric_columns Ref.pd [("c", Ref.all_numbers)]
  = [("c", mkSeries Int64 [Num (Ref.int 1); Num (Ref.int 2); Num (Ref.int 3)])].
Proof. reflexivity. Qed.

Example scenario_one_word :
  coerce_loop Ref.pd [("c", Ref.one_word)] = [("c", Ref.one_word)]
  /\ coerce_numeric_columns Ref.pd [("c", Ref.one_word)]
     = [("c", mkSeries string_ [Str "1"; Str "2"; Str "x"])].
Proof. split; reflexivity. Qed.

Lemma NoDup_one_column {number} (s : Series number) : NoDup (columns [("c", s)]).
Proof. apply NoDup_singleton. Qed.

Lemma NoDup_three_columns : NoDup (columns Ref.three_columns).
Proof.
  repeat (apply NoDup_cons; split; [|]); try apply NoDup_nil_2;
    intros H; repeat (apply elem_of_cons in H as [H|H]; [discriminate|]); inversion H.
Qed.

Lemma coercion_all_or_nothing_witness :
  NoDup (columns Ref.three_columns)
  /\ getitem Ref.three_columns "b" = Some Ref.one_word
  /\ is_text Ref.one_word = true
  /\ getitem (coerce_loop Ref.pd Ref.three_columns) "b" = Some Ref.one_word.
Proof.
  split; [apply NoDup_three_columns|]. split; [reflexivity|]. split; [reflexivity|].
  destruct (coercion_all_or_nothing Ref.pd Ref.three_columns "b" Ref.one_word
              NoDup_three_columns eq_refl eq_refl) as (_ & _ & _ & Hfail & _).
  apply Hfail. exists (Str "x"). split; [|split; reflexivity]. cbn. tauto.
Defined.

(** C1 as stated fails on a column without a cell that counts: every
    cell that is neither missing nor empty parses (there is none), and
    the column is not adopted. *)
Lemma coercion_iff_fails_on_empty_column :
  is_text Ref.all_gaps = true
  /\ (forall c, In c (values Ref.all_gaps) -> counted c = true -> parses Ref.pd c = true)
  /\ adopts Ref.pd Ref.all_gaps = false
  /\ coerce_loop Ref.pd [("c", Ref.all_gaps)] = [("c", Ref.all_gaps)]
  /\ ~ (adopts Ref.pd Ref.all_gaps = true <->
        forall c, In c (values Ref.all_gaps) -> counted c = true -> parses Ref.pd c = true).
Proof.
  assert (Hall : forall c, In c (values Ref.all_gaps) -> counted c = true ->
                           parses Ref.pd c = true).
  { intros c [<-|[<-|[]]]; discriminate. }
  repeat split; try reflexivity; try exact Hall.
  intros [_ H]. specialize (H Hall). discriminate.
Qed.

Lemma missing_cells_do_not_block_witness :
  NoDup (columns [("c", Ref.one_gap)])
  /\ getitem [("c", Ref.one_gap)] "c" = Some Ref.one_gap
  /\ adopts Ref.pd Ref.one_gap = true
  /\ exists s', getitem (coerce_loop Ref.pd [("c", Ref.one_gap)]) "c" = Some s'
                /\ values s' !! 1%nat = Some NA.
Proof.
  split; [apply NoDup_one_column|]. split; [reflexivity|]. split; [reflexivity|].
  destruct (missing_cells_do_not_block Ref.pd [("c", Ref.one_gap)] "c" Ref.one_gap)
    as (_ & H & _).
  destruct (H (NoDup_one_column _) eq_refl eq_refl) as (s' & Hs' & Hna).
  exists s'. split; [exact Hs'|]. apply (Hna 1%nat (Str "")); reflexivity.
Defined.

Lemma all_empty_column_not_promoted_witness :
  NoDup (columns [("c", Ref.all_gaps)])
  /\ getitem [("c", Ref.all_gaps)] "c" = Some Ref.all_gaps
  /\ (forall c, In c (values Ref.all_gaps) -> counted c = false)
  /\ adopts Ref.pd Ref.all_gaps = false
  /\ getitem (coerce_loop Ref.pd [("c", Ref.all_gaps)]) "c" = Some Ref.all_gaps.
Proof.
  assert (Hempty : forall c, In c (values Ref.all_gaps) -> counted c = false).
  { intros c [<-|[<-|[]]]; reflexivity. }
  split; [apply NoDup_one_column|]. split; [reflexivity|]. split; [exact Hempty|].
  apply (all_empty_column_not_promoted Ref.pd [("c", Ref.all_gaps)] "c" Ref.all_gaps
           (NoDup_one_column _) eq_refl Hempty).
Defined.

(** ** The call on frame objects *)

Section StoreFacts.

Context {number : Type} (pd : pandas number).

Implicit Types (h : gmap Store.ref (DataFrame number)) (df d : DataFrame number).

(** The loop on the object at [r], while nothing else refers to it. *)
Lemma store_loop h (r : Store.ref) (body : string -> Store.St unit) (cols : list string) d :
  (forall col d' h', col ∈ columns d' ->
     h' !! r = Some d' ->
     body col h' = Some (tt, <[r:=loop_body pd d' col]> h')) ->
  (forall col, col ∈ cols -> col ∈ columns d) ->
  Store.for_each cols body (<[r:=d]> h)
  = Some (tt, <[r:=fold_left (loop_body pd) cols d]> h).
Proof.
  intros Hbody. revert d. induction cols as [|col cols IH]; intros d Hcols; [reflexivity|].
  cbn [Store.for_each fold_left]. unfold Store.bind at 1.
  rewrite (Hbody col d) by (try apply lookup_insert_eq; apply Hcols; left).
  rewrite insert_insert_eq. apply IH.
  intros c Hc. rewrite columns_loop_body. apply Hcols. now right.
Qed.

(** What the call does to the store: the frame it returns is a new
    object holding [coerce_numeric_columns pd df]; every object that
    existed before is as it was. *)
Lemma store_coerce_numeric_columns h (arg : Store.ref) df :
  h !! arg = Some df ->
  exists r h',
    Store.coerce_numeric_columns pd arg h = Some (r, h')
    /\ h !! r = None
    /\ h' !! r = Some (coerce_numeric_columns pd df)
    /\ forall l, is_Some (h !! l) -> h' !! l = h !! l.
Proof.
  intros Harg. unfold Store.coerce_numeric_columns.
  set (r1 := fresh (dom h)).
  assert (Hr1 : h !! r1 = None) by (apply not_elem_of_dom, is_fresh).
  assert (Hkeep : forall l (x : DataFrame number), is_Some (h !! l) -> <[r1:=x]> h !! l = h !! l).
  { intros l x [y Hy]. apply lookup_insert_ne. intros <-. congruence. }
  unfold Store.bind at 1. unfold Store.df_copy, Store.bind at 1, Store.load at 1.
  rewrite Harg. unfold Store.alloc. fold r1.
  unfold Store.bind at 1. unfold Store.df_columns, Store.bind at 1, Store.load at 1.
  rewrite lookup_insert_eq. unfold Store.ret at 1.
  unfold Store.bind at 1.
  rewrite (store_loop h r1 (Store.loop_body pd r1) (columns df) df).
  2:{ intros col d' h' Hcol Hd'. unfold Store.loop_body, Store.bind at 1.
      unfold Store.df_getitem, Store.bind at 1, Store.load at 1. rewrite Hd'.
      destruct (getitem_Some d' col Hcol) as [s Hs]. rewrite Hs.
      rewrite loop_body_spec, Hs. unfold adopts, is_text.
      destruct (is_object_dtype s || is_string_dtype s); cbn [andb];
        [|unfold Store.ret; now rewrite insert_id].
      destruct (any _); cbn [andb]; [|unfold Store.ret; now rewrite insert_id].
      destruct (all _); [|unfold Store.ret; now rewrite insert_id].
      unfold Store.df_setitem, Store.bind, Store.load. now rewrite Hd'. }
  2:{ auto. }
  fold (coerce_loop pd df).
  unfold Store.bind at 1. unfold Store.df_convert_dtypes, Store.bind at 1, Store.load at 1.
  rewrite lookup_insert_eq. unfold coerce_numeric_columns, refine.
  destruct (convert_dtypes pd (coerce_loop pd df)) as [df'|].
  - unfold Store.bind, Store.alloc, Store.ret.
    set (h1 := <[r1:=coerce_loop pd df]> h). set (r2 := fresh (dom h1)).
    assert (Hr2 : h1 !! r2 = None) by (apply not_elem_of_dom, is_fresh).
    exists r2, (<[r2:=df']> h1). split; [reflexivity|]. split; [|split].
    + destruct (h !! r2) eqn:E; [|reflexivity].
      unfold h1 in Hr2. rewrite Hkeep in Hr2 by eauto. congruence.
    + apply lookup_insert_eq.
    + intros l Hl. rewrite lookup_insert_ne.
      * unfold h1. now apply Hkeep.
      * intros <-. unfold h1 in Hr2. rewrite Hkeep in Hr2 by assumption.
        destruct Hl. congruence.
  - unfold Store.ret. exists r1, (<[r1:=coerce_loop pd df]> h).
    split; [reflexivity|]. split; [exact Hr1|]. split; [apply lookup_insert_eq|].
    intros l Hl. now apply Hkeep.
Qed.

(** C10.  The call does not change its argument: the frame it returns
    is a new object, and the argument, like every other object of the
    store, holds after the call what it held before. *)
Theorem coerce_leaves_argument_untouched h (arg : Store.ref) df :
  h !! arg = Some df ->
  exists r h',
    Store.coerce_numeric_columns pd arg h = Some (r, h')
    /\ r <> arg
    /\ h !! r = None
    /\ h' !! arg = Some df
    /\ forall l, is_Some (h !! l) -> h' !! l = h !! l.
Proof.
  intros Harg.
  destruct (store_coerce_numeric_columns h arg df Harg) as (r & h' & Hrun & Hnew & _ & Hold).
  exists r, h'. split; [exact Hrun|]. split; [congruence|]. split; [exact Hnew|].
  split; [|exact Hold]. rewrite Hold by eauto. exact Harg.
Qed.

End StoreFacts.

Lemma coerce_leaves_argument_untouched_witness :
  let h : gmap Store.ref (DataFrame Ref.num) := {[ 1%positive := [("c", Ref.one_gap)] ]} in
  h !! 1%positive = Some [("c", Ref.one_gap)]
  /\ exists r h',
       Store.coerce_numeric_columns Ref.pd 1%positive h = Some (r, h')
       /\ r <> 1%positive
       /\ h' !! 1%positive = Some [("c", Ref.one_gap)].
Proof.
  intros h. split; [reflexivity|].
  destruct (coerce_leaves_argument_untouched Ref.pd h 1%positive [("c", Ref.one_gap)] eq_refl)
    as (r & h' & Hrun & Hne & _ & Harg & _).
  exists r, h'. auto.
Defined.

(** ** The script in a world of files *)

Section ScriptFacts.

Context {number : Type} (pd : pandas number).

Implicit Types (w : @World number) (df : DataFrame number) (p q d : string).

Lemma world_eta w : mkWorld (fs w) (stdout w) = w.
Proof. now destruct w. Qed.

Lemma bind_Ok {A B} (m : M A) (k : A -> M B) w b w' :
  bind m k w = (Ok b, w') ->
  exists a w1, m w = (Ok a, w1) /\ k a w1 = (Ok b, w').
Proof.
  unfold bind. destruct (m w) as [[a|e] w1]; [eauto|discriminate].
Qed.

Lemma bind_eq {A B} (m : M A) (k : A -> M B) w a w1 :
  m w = (Ok a, w1) -> bind m k w = k a w1.
Proof. unfold bind. now intros ->. Qed.

Lemma for_each_print {A} (f : A -> line) (xs : list A) w :
  for_each xs (fun x => print (f x)) w = (Ok tt, mkWorld (fs w) (stdout w ++ map f xs)).
Proof.
  revert w. induction xs as [|x xs IH]; intros w.
  - cbn. unfold ret. now rewrite app_nil_r, world_eta.
  - cbn [for_each map]. unfold bind, print at 1. rewrite IH. cbn [fs stdout].
    now rewrite <- app_assoc.
Qed.

(** *** Paths *)

Lemma rstrip_sep_cons c p :
  rstrip_sep (String c p)
  = match rstrip_sep p with
    | EmptyString => if is_sep c then EmptyString else String c EmptyString
    | r => String c r
    end.
Proof. reflexivity. Qed.

Lemma rstrip_sep_idem p : rstrip_sep (rstrip_sep p) = rstrip_sep p.
Proof.
  induction p as [|c p IH]; [reflexivity|]. rewrite (rstrip_sep_cons c p).
  destruct (rstrip_sep p) as [|c' r] eqn:E.
  - destruct (is_sep c) eqn:Hc; [reflexivity|]. rewrite rstrip_sep_cons. cbn [rstrip_sep].
    now rewrite Hc.
  - now rewrite rstrip_sep_cons, IH.
Qed.

Lemma ends_with_sep_false p : ends_with_sep p = false <-> rstrip_sep p = p.
Proof. unfold ends_with_sep. rewrite negb_false_iff. apply String.eqb_eq. Qed.

(** A path without a trailing separator is its own entry. *)
Lemma key_plain p : ends_with_sep p = false -> p <> "" -> key p = p.
Proof.
  intros H%ends_with_sep_false Hne. unfold key. rewrite H. destruct p; congruence.
Qed.

(** What [dirname] returns is empty, or has no trailing separator, or is
    the root. *)
Lemma dirname_shape p :
  dirname p = "" \/ ends_with_sep (dirname p) = false \/ key (dirname p) = "/".
Proof.
  unfold dirname. destruct (rstrip_sep (upto_last_sep p)) as [|c r] eqn:E.
  - right. right. unfold key. now rewrite E.
  - right. left. apply ends_with_sep_false. rewrite <- E. apply rstrip_sep_idem.
Qed.

Lemma ancestors_shape fuel name d :
  d ∈ ancestors fuel name -> d <> "" /\ (ends_with_sep d = false \/ key d = "/").
Proof.
  revert name. induction fuel as [|fuel IH]; intros name; cbn [ancestors]; [inversion 1|].
  destruct (String.eqb (dirname name) "") eqn:E1; cbn [orb]; [inversion 1|].
  destruct (String.eqb (dirname name) name); [inversion 1|].
  intros [H|H%list_elem_of_singleton]%elem_of_app; [eauto|]. subst d.
  apply String.eqb_neq in E1. split; [exact E1|].
  destruct (dirname_shape name) as [?|?]; [contradiction|assumption].
Qed.

(** The directories [write_sqlite] asks for are written without a
    trailing separator, the root apart. *)
Lemma chain_shape p d :
  d ∈ dir_chain (parent_dir p) -> d <> "" /\ (ends_with_sep d = false \/ key d = "/").
Proof.
  unfold dir_chain. intros [H|H%list_elem_of_singleton]%elem_of_app;
    [eapply ancestors_shape, H|].
  subst d. unfold parent_dir. destruct (String.eqb (dirname p) "") eqn:E.
  - split; [discriminate|left; reflexivity].
  - apply String.eqb_neq in E. split; [exact E|].
    destruct (dirname_shape p) as [?|?]; [contradiction|assumption].
Qed.

Lemma parent_in_chain p : parent_dir p ∈ dir_chain (parent_dir p).
Proof. unfold dir_chain. apply elem_of_app. right. now left. Qed.

Lemma entry_insert_ne w k q (n : @node number) out :
  q <> k -> entry (mkWorld (<[k:=n]> (fs w)) out) q = entry w q.
Proof.
  intros Hne. unfold entry. cbn [fs]. destruct (_ || _); [reflexivity|].
  now apply lookup_insert_ne.
Qed.

Lemma entry_insert_eq w k (n : @node number) out :
  entry w k <> Some Dir -> entry (mkWorld (<[k:=n]> (fs w)) out) k = Some n.
Proof.
  unfold entry. cbn [fs]. destruct (_ || _); [congruence|]. intros _. apply lookup_insert_eq.
Qed.

Lemma lookup_path_entry w w1 p :
  entry w1 (key p) = entry w (key p) -> lookup_path w1 p = lookup_path w p.
Proof. unfold lookup_path. now intros ->. Qed.

Lemma lookup_path_same_fs w w1 p : fs w1 = fs w -> lookup_path w1 p = lookup_path w p.
Proof. intros H. apply lookup_path_entry. unfold entry. now rewrite H. Qed.

Lemma lookup_path_empty w : lookup_path w "" = None.
Proof. reflexivity. Qed.

Lemma lookup_path_Some_entry w p n : lookup_path w p = Some n -> entry w (key p) = Some n.
Proof.
  unfold lookup_path. destruct (String.eqb p ""); [discriminate|].
  destruct (_ || _); [|auto]. unfold dir_only.
  destruct (entry w (key p)) as [[| |]|]; congruence.
Qed.

Lemma lookup_path_Dir w p : p <> "" -> entry w (key p) = Some Dir -> lookup_path w p = Some Dir.
Proof.
  intros Hne%String.eqb_neq He. unfold lookup_path. rewrite Hne, He. now destruct (_ || _).
Qed.

(** A path that names nothing, and another path to the same entry. *)
Lemma lookup_path_None_key w p q :
  q <> "" -> lookup_path w q = None -> key p = key q ->
  (ends_with_sep q = true -> entry w (key q) = None) ->
  lookup_path w p = None.
Proof.
  intros Hne Hq Hk Hblock.
  assert (Hentry : entry w (key q) = None -> lookup_path w p = None).
  { intros He. destruct (lookup_path w p) as [n|] eqn:Hp; [|reflexivity].
    apply lookup_path_Some_entry in Hp. congruence. }
  unfold lookup_path in Hq. apply String.eqb_neq in Hne. rewrite Hne in Hq.
  destruct (ends_with_sep q) eqn:Ee; cbn [orb] in Hq; [auto|].
  destruct (String.eqb q ":memory:") eqn:Em; [|auto].
  apply String.eqb_eq in Em. apply String.eqb_neq in Hne.
  rewrite (key_plain q Ee Hne) in *. subst q.
  unfold lookup_path. destruct (String.eqb p "") eqn:E0; [reflexivity|].
  destruct (ends_with_sep p) eqn:Ep; cbn [orb]; [now rewrite Hk|].
  apply String.eqb_neq in E0. rewrite (key_plain p Ep E0) in Hk. subst p.
  cbn [String.eqb Ascii.eqb]. exact Hq.
Qed.

(** *** Directories *)

(** What one step of [os.makedirs] leaves behind. *)
Lemma ensure_dir_effect d w r w' :
  ensure_dir d w = (r, w') ->
  stdout w' = stdout w
  /\ (forall q, q <> key d \/ key d = "/" -> fs w' !! q = fs w !! q)
  /\ (forall p n, lookup_path w p = Some n -> lookup_path w' p = Some n)
  /\ (forall p, lookup_path w' p = lookup_path w p \/ lookup_path w' p = Some Dir)
  /\ (r = Ok tt -> lookup_path w' d = Some Dir).
Proof.
  unfold ensure_dir. destruct (String.eqb d "") eqn:E0.
  { intros [= <- <-]. repeat split; auto. discriminate. }
  apply String.eqb_neq in E0.
  destruct (lookup_path w d) as [[| |]|] eqn:Hd;
    try (intros [= <- <-]; repeat split; auto; discriminate).
  destruct (ends_with_sep d && bool_decide (is_Some (entry w (key d)))) eqn:Hblock;
    [intros [= <- <-]; repeat split; auto; discriminate|].
  intros [= <- <-]. cbn [fs stdout].
  assert (Hk : entry w (key d) <> Some Dir).
  { intros He. rewrite (lookup_path_Dir w d E0 He) in Hd. discriminate. }
  assert (Hfree : ends_with_sep d = true -> entry w (key d) = None).
  { intros He. rewrite He in Hblock. cbn [andb] in Hblock.
    apply bool_decide_eq_false in Hblock. destruct (entry w (key d)); [|reflexivity].
    destruct Hblock. eauto. }
  assert (Hother : forall p, key p <> key d ->
            lookup_path (mkWorld (<[key d:=Dir]> (fs w)) (stdout w)) p = lookup_path w p).
  { intros p Hne. apply lookup_path_entry. now apply entry_insert_ne. }
  assert (Hsame : forall p, p <> "" -> key p = key d ->
            lookup_path (mkWorld (<[key d:=Dir]> (fs w)) (stdout w)) p = Some Dir).
  { intros p Hp Heq. apply lookup_path_Dir; [exact Hp|]. rewrite Heq.
    apply entry_insert_eq, Hk. }
  split; [reflexivity|]. split; [|split; [|split]].
  - intros q [Hq|Hq].
    + now apply lookup_insert_ne.
    + destruct Hk. unfold entry. now rewrite Hq.
  - intros p n Hp. destruct (decide (key p = key d)) as [Heq|Hne].
    + rewrite (lookup_path_None_key w p d E0 Hd Heq Hfree) in Hp. discriminate.
    + now rewrite Hother.
  - intros p. destruct (decide (key p = key d)) as [Heq|Hne]; [|left; now apply Hother].
    destruct (decide (p = "")) as [->|Hp]; [now left|right; now apply Hsame].
  - intros _. now apply Hsame.
Qed.

(** What a run of [ensure_dir] over a list of paths leaves behind. *)
Lemma ensure_dirs_effect (ds : list string) w r w' :
  for_each ds ensure_dir w = (r, w') ->
  stdout w' = stdout w
  /\ (forall q, (forall d, d ∈ ds -> q <> key d \/ key d = "/") -> fs w' !! q = fs w !! q)
  /\ (forall p n, lookup_path w p = Some n -> lookup_path w' p = Some n)
  /\ (r = Ok tt -> forall d, d ∈ ds -> lookup_path w' d = Some Dir).
Proof.
  revert w. induction ds as [|d ds IH]; intros w.
  - cbn. unfold ret. intros [= <- <-]. repeat split; auto. intros _ d Hd. inversion Hd.
  - cbn [for_each]. unfold bind.
    destruct (ensure_dir d w) as [[[]|e] w1] eqn:Hstep;
      destruct (ensure_dir_effect _ _ _ _ Hstep) as (Hout1 & Hframe1 & Hmono1 & _ & Hdir1).
    + intros H. destruct (IH _ H) as (Hout & Hframe & Hmono & Hdirs).
      split; [congruence|]. split; [|split].
      * intros q Hq. rewrite Hframe, Hframe1; [reflexivity| |].
        -- apply Hq. now left.
        -- intros d' Hd'. apply Hq. now right.
      * intros p n Hp. eauto.
      * intros Hr d' [->|Hd']%elem_of_cons; auto.
    + intros [= <- <-]. split; [exact Hout1|]. split; [|split].
      * intros q Hq. apply Hframe1, Hq. now left.
      * exact Hmono1.
      * discriminate.
Qed.

(** The same for the directories [write_sqlite] asks for: only they can
    have been made. *)
Lemma makedirs_effect p w r w' :
  os_makedirs (parent_dir p) w = (r, w') ->
  stdout w' = stdout w
  /\ (forall q, q ∉ dir_chain (parent_dir p) -> fs w' !! q = fs w !! q)
  /\ (forall q n, lookup_path w q = Some n -> lookup_path w' q = Some n)
  /\ (r = Ok tt -> forall d, d ∈ dir_chain (parent_dir p) -> lookup_path w' d = Some Dir).
Proof.
  intros H. destruct (ensure_dirs_effect _ _ _ _ H) as (Hout & Hframe & Hmono & Hdirs).
  split; [exact Hout|]. split; [|split; assumption].
  intros q Hq. apply Hframe. intros d Hd.
  destruct (chain_shape p d Hd) as (Hne & [He|Hroot]); [left|now right].
  rewrite (key_plain d He Hne). intros ->. contradiction.
Qed.

(** Nothing in the way: the directories get made. *)
Lemma ensure_dirs_ok (ds : list string) w :
  (forall d, d ∈ ds -> d <> "" /\ (ends_with_sep d = false \/ key d = "/")) ->
  (forall d, d ∈ ds -> lookup_path w d = None \/ lookup_path w d = Some Dir) ->
  exists w', for_each ds ensure_dir w = (Ok tt, w').
Proof.
  intros Hshape. revert w. induction ds as [|d ds IH]; intros w Hfree;
    [cbn; unfold ret; eauto|].
  cbn [for_each]. unfold bind.
  destruct (ensure_dir d w) as [r w1] eqn:Hstep.
  destruct (ensure_dir_effect _ _ _ _ Hstep) as (_ & _ & Hmono & Hnew & _).
  assert (Hr : r = Ok tt).
  { destruct (Hshape d) as (Hne & Hsh); [now left|].
    destruct (Hfree d) as [Hd|Hd]; [now left| |];
      unfold ensure_dir in Hstep; apply String.eqb_neq in Hne; rewrite Hne, Hd in Hstep.
    - destruct Hsh as [He|Hroot].
      + rewrite He in Hstep. cbn [andb] in Hstep. congruence.
      + apply String.eqb_neq in Hne.
        assert (lookup_path w d = Some Dir).
        { apply lookup_path_Dir; [exact Hne|]. unfold entry. now rewrite Hroot. }
        congruence.
    - congruence. }
  subst r. apply IH.
  - intros d' Hd'. apply Hshape. now right.
  - intros d' Hd'. destruct (Hnew d') as [E|E]; rewrite E; [|now right]. apply Hfree. now right.
Qed.

(** All there already: nothing changes. *)
Lemma ensure_dirs_idem (ds : list string) w :
  (forall d, d ∈ ds -> lookup_path w d = Some Dir) ->
  for_each ds ensure_dir w = (Ok tt, w).
Proof.
  induction ds as [|d ds IH]; intros Hdirs; [reflexivity|].
  cbn [for_each]. unfold bind, ensure_dir at 1.
  assert (Hd : lookup_path w d = Some Dir) by (apply Hdirs; now left).
  destruct (String.eqb d "") eqn:E0.
  { apply String.eqb_eq in E0. subst d. discriminate. }
  rewrite Hd. apply IH. intros d' Hd'. apply Hdirs. now right.
Qed.

(** Making directories does not look at what was printed. *)
Lemma ensure_dir_stdout d (f : gmap string (@node number)) out out' r w1 :
  ensure_dir d (mkWorld f out) = (r, w1) ->
  ensure_dir d (mkWorld f out') = (r, mkWorld (fs w1) out').
Proof.
  unfold ensure_dir.
  change (lookup_path (mkWorld f out') d) with (lookup_path (mkWorld f out) d).
  change (entry (mkWorld f out') (key d)) with (entry (mkWorld f out) (key d)).
  destruct (String.eqb d ""); [now intros [= <- <-]|].
  destruct (lookup_path (mkWorld f out) d) as [[| |]|]; try (now intros [= <- <-]).
  destruct (_ && _); now intros [= <- <-].
Qed.

Lemma ensure_dirs_stdout (ds : list string) (f : gmap string (@node number)) out out' r w1 :
  for_each ds ensure_dir (mkWorld f out) = (r, w1) ->
  for_each ds ensure_dir (mkWorld f out') = (r, mkWorld (fs w1) out').
Proof.
  revert f out. induction ds as [|d ds IH]; intros f out.
  - cbn. unfold ret. now intros [= <- <-].
  - cbn [for_each]. unfold bind.
    destruct (ensure_dir d (mkWorld f out)) as [[[]|e] [f2 out2]] eqn:E;
      rewrite (ensure_dir_stdout _ _ _ out' _ _ E); cbn [fs].
    + apply IH.
    + now intros [= <- <-].
Qed.

Lemma makedirs_stdout p w out' r w1 :
  os_makedirs p w = (r, w1) ->
  os_makedirs p (mkWorld (fs w) out') = (r, mkWorld (fs w1) out').
Proof. destruct w as [f out]. apply ensure_dirs_stdout. Qed.

(** *** The database *)

(** A path that names a file is not special and has no trailing
    separator. *)
Lemma lookup_path_file w p n :
  lookup_path w p = Some n -> n <> Dir ->
  special_name p = false /\ ends_with_sep p = false /\ fs w !! p = Some n.
Proof.
  unfold lookup_path, special_name. destruct (String.eqb p "") eqn:E0; [discriminate|].
  cbn [orb]. destruct (ends_with_sep p) eqn:Ee; cbn [orb].
  - unfold dir_only. destruct (entry w (key p)) as [[| |]|]; congruence.
  - destruct (String.eqb p ":memory:") eqn:Em.
    + unfold dir_only. destruct (entry w (key p)) as [[| |]|]; congruence.
    + apply String.eqb_neq in E0. rewrite (key_plain p Ee E0). unfold entry.
      destruct (_ || _); [congruence|]. auto.
Qed.

Lemma sqlite3_connect_inv p w r w' :
  sqlite3_connect p w = (r, w') ->
  w' = w
  /\ forall conn, r = Ok conn ->
       special_name p = true /\ conn = ∅
       \/ special_name p = false /\ ends_with_sep p = false
          /\ lookup_path w (parent_dir p) = Some Dir
          /\ (lookup_path w p = None /\ conn = ∅ \/ lookup_path w p = Some (SqliteFile conn)).
Proof.
  unfold sqlite3_connect. destruct (special_name p).
  { intros [= <- <-]. split; [reflexivity|]. intros conn [= <-]. now left. }
  destruct (ends_with_sep p); [intros [= <- <-]; split; [reflexivity|discriminate]|].
  destruct (lookup_path w (parent_dir p)) as [[| |]|];
    try (intros [= <- <-]; split; [reflexivity|discriminate]).
  destruct (lookup_path w p) as [[| |]|]; intros [= <- <-]; (split; [reflexivity|]);
    intros conn [= <-]; try discriminate; right;
    (split; [reflexivity|split; [reflexivity|split; [reflexivity|auto]]]).
Qed.

Lemma sqlite3_connect_special p w :
  special_name p = true -> sqlite3_connect p w = (Ok ∅, w).
Proof. unfold sqlite3_connect. now intros ->. Qed.

Lemma sqlite3_connect_existing p w conn :
  lookup_path w (parent_dir p) = Some Dir ->
  lookup_path w p = Some (SqliteFile conn) ->
  sqlite3_connect p w = (Ok conn, w).
Proof.
  intros Hparent Hdb.
  destruct (lookup_path_file w p _ Hdb) as (Hs & He & _); [discriminate|].
  unfold sqlite3_connect. now rewrite Hs, He, Hparent, Hdb.
Qed.


(** Opening a database does not look at what was printed. *)
Lemma sqlite3_connect_fs p w w2 r :
  fs w2 = fs w -> sqlite3_connect p w = (r, w) -> sqlite3_connect p w2 = (r, w2).
Proof.
  intros Hfs. unfold sqlite3_connect.
  rewrite !(lookup_path_same_fs w w2) by exact Hfs.
  destruct (special_name p); [now intros [= <-]|].
  destruct (ends_with_sep p); [now intros [= <-]|].
  destruct (lookup_path w (parent_dir p)) as [[| |]|]; try (now intros [= <-]).
  destruct (lookup_path w p) as [[| |]|]; now intros [= <-].
Qed.

(** The file after the connection is left. *)
Lemma lookup_path_commit w p (n : @node number) out :
  special_name p = false -> ends_with_sep p = false ->
  lookup_path w p <> Some Dir ->
  lookup_path (mkWorld (<[p:=n]> (fs w)) out) p = Some n.
Proof.
  unfold special_name. intros [E0 Em]%orb_false_iff Ee Hnodir.
  assert (Hne : p <> "") by now apply String.eqb_neq.
  assert (Hk := key_plain p Ee Hne).
  unfold lookup_path in *. rewrite E0, Ee, Em, Hk in *. cbn [orb] in *.
  now apply entry_insert_eq.
Qed.

Lemma lookup_path_committed w p tables :
  special_name p = false -> ends_with_sep p = false ->
  lookup_path w p <> Some Dir ->
  lookup_path (committed p tables w) p = Some (SqliteFile tables).
Proof.
  intros Hs He Hnodir. unfold committed. rewrite Hs. now apply lookup_path_commit.
Qed.

(** Every other path names what it named. *)
Lemma lookup_path_committed_ne w p q tables n :
  ends_with_sep p = false -> lookup_path w p <> Some Dir ->
  lookup_path w q = Some n -> q <> p ->
  lookup_path (committed p tables w) q = Some n.
Proof.
  intros He Hnodir Hq Hne. unfold committed. destruct (special_name p) eqn:Hs; [exact Hq|].
  rewrite <- Hq. apply lookup_path_entry. apply entry_insert_ne. intros Hk.
  assert (Hp : p <> "").
  { intros ->. discriminate. }
  destruct (ends_with_sep q) eqn:Eq.
  - apply lookup_path_Some_entry in Hq as Hq'. rewrite Hk in Hq'.
    unfold lookup_path in Hq. destruct (String.eqb q ""); [discriminate|].
    rewrite Eq in Hq. cbn [orb] in Hq. rewrite Hk, Hq' in Hq.
    destruct n; try discriminate.
    apply Hnodir. apply lookup_path_Dir; [exact Hp|]. now rewrite (key_plain p He Hp).
  - destruct (decide (q = "")) as [->|Hq0]; [discriminate|].
    rewrite (key_plain q Eq Hq0) in Hk. contradiction.
Qed.


Lemma committed_fs_ne w p q tables :
  q <> p -> fs (committed p tables w) !! q = fs w !! q.
Proof.
  intros Hne. unfold committed. destruct (special_name p); [reflexivity|].
  cbn [fs]. now apply lookup_insert_ne.
Qed.

(** *** to_sql *)

(** Under the policy "replace" the table is created and filled in the
    database without it, whether it was there or not. *)
Lemma to_sql_replace_eq df t (conn : gmap string (Table number)) :
  to_sql pd df t replace_ conn = create_and_insert pd df t (delete t conn).
Proof.
  unfold to_sql. destruct (conn !! t) eqn:Ht; [reflexivity|]. now rewrite delete_id.
Qed.

(** When the call returns, the table is the frame's. *)
Lemma to_sql_replace_Ok df t (conn : gmap string (Table number)) :
  fst (to_sql pd df t replace_ conn) = Ok tt ->
  to_sql pd df t replace_ conn = (Ok tt, <[t:=table_of pd df]> conn).
Proof.
  rewrite to_sql_replace_eq. unfold create_and_insert.
  destruct (sql_create_error pd (delete t conn) t df); [discriminate|]. cbv zeta.
  destruct (sql_insert_error pd _ t df); [discriminate|]. intros _.
  now rewrite insert_delete_eq.
Qed.

(** A table that is there does not change what the call does. *)
Lemma to_sql_replace_insert df t (conn : gmap string (Table number)) x :
  to_sql pd df t replace_ (<[t:=x]> conn) = to_sql pd df t replace_ conn.
Proof. now rewrite !to_sql_replace_eq, delete_insert_eq. Qed.


(** *** write_sqlite *)

Lemma write_sqlite_eq df db t policy w w1 conn :
  os_makedirs (parent_dir db) w = (Ok tt, w1) ->
  sqlite3_connect db w1 = (Ok conn, w1) ->
  write_sqlite pd df db t policy w
  = (fst (to_sql pd df t policy conn),
     committed db (snd (to_sql pd df t policy conn)) w1).
Proof.
  intros Hmk Hconn. unfold write_sqlite.
  rewrite (bind_eq _ _ _ _ _ Hmk), (bind_eq _ _ _ _ _ Hconn). reflexivity.
Qed.

(** The three ways a call of [write_sqlite] goes: the directories cannot
    be made; the database cannot be opened; or [to_sql] runs, and what
    it leaves is in the file whatever it returns. *)
Lemma write_sqlite_cases df db t policy w r w' :
  write_sqlite pd df db t policy w = (r, w') ->
  (exists e, r = Raise e /\ os_makedirs (parent_dir db) w = (Raise e, w'))
  \/ exists w1,
       os_makedirs (parent_dir db) w = (Ok tt, w1)
       /\ ((exists e, r = Raise e /\ w' = w1 /\ sqlite3_connect db w1 = (Raise e, w1))
           \/ exists conn,
                sqlite3_connect db w1 = (Ok conn, w1)
                /\ r = fst (to_sql pd df t policy conn)
                /\ w' = committed db (snd (to_sql pd df t policy conn)) w1).
Proof.
  destruct (os_makedirs (parent_dir db) w) as [[[]|e] w1] eqn:Hmk.
  - destruct (sqlite3_connect db w1) as [[conn|e] w2] eqn:Hconn;
      destruct (sqlite3_connect_inv _ _ _ _ Hconn) as [-> _].
    + rewrite (write_sqlite_eq df db t policy w w1 conn Hmk Hconn).
      intros [= <- <-]. right. exists w1. split; [reflexivity|]. right. eauto.
    + unfold write_sqlite. rewrite (bind_eq _ _ _ _ _ Hmk). unfold bind. rewrite Hconn.
      intros [= <- <-]. right. exists w1. split; [reflexivity|]. left. eauto.
  - unfold write_sqlite, bind. rewrite Hmk. intros [= <- <-]. left. eauto.
Qed.


(** *** The verification block *)

Lemma verify_eq db t w conn :
  sqlite3_connect db w = (Ok conn, w) ->
  verify pd db t w
  = match pragma_table_info pd conn t with
    | Raise e => (Raise e, w)
    | Ok cols =>
        match select_count pd conn t with
        | Raise e => (Raise e, mkWorld (fs w) (stdout w ++ schema_report cols))
        | Ok count =>
            (Ok (cols, count),
             mkWorld (fs w) (stdout w ++ schema_report cols ++ [row_count t count]))
        end
    end.
Proof.
  intros Hconn. unfold verify. rewrite (bind_eq _ _ _ _ _ Hconn).
  unfold bind at 1, of_result at 1.
  destruct (pragma_table_info pd conn t) as [cols|e]; [|reflexivity].
  unfold bind at 1, print at 1. unfold bind at 1. rewrite for_each_print.
  unfold bind at 1, of_result. cbn [fs stdout]. unfold schema_report.
  destruct (select_count pd conn t) as [count|e].
  - unfold bind, print, ret. cbn [fs stdout]. now rewrite <- !app_assoc.
  - now rewrite <- app_assoc.
Qed.


(** A database that was just opened under a special name has no table
    to count. *)
Lemma select_count_empty t :
  exists e, select_count pd (∅ : gmap string (Table number)) t = Raise e.
Proof.
  unfold select_count. destruct (sql_from_name pd t); [|eauto].
  rewrite lookup_empty. eauto.
Qed.

(** *** main, step by step *)

(** [main] up to the call of [write_sqlite]. *)
Lemma main_start args w :
  main pd args w
  = match lookup_path w (csv_path args) with
    | None => (Raise (SystemExit ("CSV not found: " ++ csv_path args)%string), w)
    | Some (TextFile text) =>
        match read_csv pd text with
        | Some df0 =>
            let df := coerce_numeric_columns pd df0 in
            bind (write_sqlite pd df (db_path args) (table_name args) replace_)
                 (fun _ => bind (verify pd (db_path args) (table_name args))
                                (fun _ => bind (print done_) (fun _ => ret 0%Z)))
                 (mkWorld (fs w) (stdout w ++ before_write args df))
        | None => (Raise ParserError, mkWorld (fs w) (stdout w ++ [reading_csv (csv_path args)]))
        end
    | Some Dir =>
        (Raise (IsADirectoryError (csv_path args)),
         mkWorld (fs w) (stdout w ++ [reading_csv (csv_path args)]))
    | Some (SqliteFile _) =>
        (Raise UnicodeDecodeError, mkWorld (fs w) (stdout w ++ [reading_csv (csv_path args)]))
    end.
Proof.
  unfold main, bind at 1, os_path_exists.
  destruct (lookup_path w (csv_path args)) as [n|] eqn:Hcsv.
  2:{ rewrite bool_decide_eq_false_2 by (intros [? ?]; discriminate). reflexivity. }
  rewrite bool_decide_eq_true_2 by eauto. cbn [negb].
  unfold bind at 1, print at 1. unfold bind at 1, load_csv, bind at 1, read_text.
  rewrite (lookup_path_same_fs w) by reflexivity. rewrite Hcsv.
  destruct n as [|text|]; try reflexivity.
  destruct (read_csv pd text) as [df0|]; [|reflexivity].
  unfold ret at 1. unfold bind at 1, print at 1. unfold bind at 1, print at 1.
  unfold bind at 1. rewrite for_each_print. unfold bind at 1, print at 1.
  cbn [fs stdout]. unfold before_write. now rewrite <- !app_assoc.
Qed.

(** [main] from the call of [write_sqlite] on, when the directories can
    be made, the database is a file that opens and [to_sql] returns:
    the table is in the file, and the outcome is that of the two
    statements of the verification block. *)
Lemma main_rest args df w0 w1 conn :
  os_makedirs (parent_dir (db_path args)) w0 = (Ok tt, w1) ->
  sqlite3_connect (db_path args) w1 = (Ok conn, w1) ->
  special_name (db_path args) = false ->
  fst (to_sql pd df (table_name args) replace_ conn) = Ok tt ->
  bind (write_sqlite pd df (db_path args) (table_name args) replace_)
       (fun _ => bind (verify pd (db_path args) (table_name args))
                      (fun _ => bind (print done_) (fun _ => ret 0%Z))) w0
  = let T := <[table_name args:=table_of pd df]> conn in
    let f := <[db_path args:=SqliteFile T]> (fs w1) in
    match pragma_table_info pd T (table_name args) with
    | Raise e => (Raise e, mkWorld f (stdout w1))
    | Ok cols =>
        match select_count pd T (table_name args) with
        | Raise e => (Raise e, mkWorld f (stdout w1 ++ schema_report cols))
        | Ok count =>
            (Ok 0%Z, mkWorld f (stdout w1 ++ after_write (table_name args) cols count))
        end
    end.
Proof.
  intros Hmk Hconn Hs Hsql%to_sql_replace_Ok. cbv zeta.
  set (T := <[table_name args:=table_of pd df]> conn) in *.
  unfold bind at 1.
  rewrite (write_sqlite_eq df _ _ replace_ w0 w1 conn Hmk Hconn), Hsql. cbn [fst snd].
  destruct (sqlite3_connect_inv _ _ _ _ Hconn) as [_ Hinv].
  destruct (Hinv conn eq_refl) as [[Hs' _]|(_ & He & Hparent & Hdb)]; [congruence|].
  assert (Hnodir : lookup_path w1 (db_path args) <> Some Dir).
  { destruct Hdb as [[-> _]| ->]; discriminate. }
  assert (Hne : parent_dir (db_path args) <> db_path args) by congruence.
  set (w2 := committed (db_path args) T w1).
  assert (Hconn2 : sqlite3_connect (db_path args) w2 = (Ok T, w2)).
  { apply sqlite3_connect_existing.
    - now apply lookup_path_committed_ne.
    - now apply lookup_path_committed. }
  unfold bind at 1. rewrite (verify_eq _ _ w2 T Hconn2).
  unfold w2, committed. rewrite Hs. cbn [fs stdout].
  destruct (pragma_table_info pd T (table_name args)) as [cols|e]; [|reflexivity].
  destruct (select_count pd T (table_name args)) as [count|e]; [|reflexivity].
  unfold bind, print, ret, after_write. cbn [fs stdout].
  now rewrite <- !app_assoc.
Qed.

(** When the rest of [main] returns, the directories were made, the
    database is a file that opened, and [to_sql] returned. *)
Lemma main_rest_Ok args df w0 n w' :
  bind (write_sqlite pd df (db_path args) (table_name args) replace_)
       (fun _ => bind (verify pd (db_path args) (table_name args))
                      (fun _ => bind (print done_) (fun _ => ret 0%Z))) w0
  = (Ok n, w') ->
  exists w1 conn,
    os_makedirs (parent_dir (db_path args)) w0 = (Ok tt, w1)
    /\ sqlite3_connect (db_path args) w1 = (Ok conn, w1)
    /\ special_name (db_path args) = false
    /\ fst (to_sql pd df (table_name args) replace_ conn) = Ok tt.
Proof.
  intros H. apply bind_Ok in H as ([] & w2 & Hw & H).
  apply write_sqlite_cases in Hw as [(e & [=] & _)|(w1 & Hmk & Hrest)].
  destruct Hrest as [(e & [=] & _)|(conn & Hconn & Hr & ->)].
  symmetry in Hr. rewrite (to_sql_replace_Ok _ _ _ Hr) in H. cbn [snd] in H.
  exists w1, conn. split; [exact Hmk|]. split; [exact Hconn|]. split; [|exact Hr].
  destruct (special_name (db_path args)) eqn:Hs; [exfalso|reflexivity].
  apply bind_Ok in H as (x & w3 & Hv & _).
  unfold committed in Hv. rewrite Hs in Hv.
  rewrite (verify_eq _ _ w1 ∅ (sqlite3_connect_special _ _ Hs)) in Hv.
  destruct (select_count_empty (table_name args)) as [e He]. rewrite He in Hv.
  destruct (pragma_table_info pd ∅ (table_name args)); discriminate.
Qed.

(** The runs of [main] that return: the input is a text file that
    parses, the directories get made, the database is a file that opens,
    [to_sql] returns, the table name written into the two statements
    names tables to SQLite and the one after [FROM] exists.  The status
    is 0, the frame's table is in the database, and the report is what
    the statements read from the tables they were about. *)
Lemma main_Ok args w n w' :
  main pd args w = (Ok n, w') <->
  n = 0%Z
  /\ exists text df0 w1 conn pt ft tbl,
      lookup_path w (csv_path args) = Some (TextFile text)
      /\ read_csv pd text = Some df0
      /\ os_makedirs (parent_dir (db_path args)) w = (Ok tt, w1)
      /\ sqlite3_connect (db_path args) w1 = (Ok conn, w1)
      /\ special_name (db_path args) = false
      /\ fst (to_sql pd (coerce_numeric_columns pd df0) (table_name args) replace_ conn)
         = Ok tt
      /\ sql_pragma_name pd (table_name args) = Some pt
      /\ sql_from_name pd (table_name args) = Some ft
      /\ <[table_name args:=table_of pd (coerce_numeric_columns pd df0)]> conn !! ft = Some tbl
      /\ w' = mkWorld
                (<[db_path args:=
                     SqliteFile (<[table_name args:=
                                     table_of pd (coerce_numeric_columns pd df0)]> conn)]>
                   (fs w1))
                (stdout w ++ before_write args (coerce_numeric_columns pd df0)
                   ++ after_write (table_name args)
                        (table_info
                           (<[table_name args:=
                                table_of pd (coerce_numeric_columns pd df0)]> conn) pt)
                        (length (rows tbl))).
Proof.
  rewrite main_start. split.
  - destruct (lookup_path w (csv_path args)) as [[|text|]|] eqn:Hcsv; try discriminate.
    destruct (read_csv pd text) as [df0|] eqn:Hread; [|discriminate].
    cbv zeta. set (df := coerce_numeric_columns pd df0). intros H.
    destruct (main_rest_Ok _ _ _ _ _ H) as (w1 & conn & Hmk & Hconn & Hs & Hsql).
    rewrite (main_rest args df _ w1 conn Hmk Hconn Hs Hsql) in H. cbv zeta in H.
    unfold pragma_table_info, select_count in H.
    destruct (sql_pragma_name pd (table_name args)) as [pt|]; [|discriminate].
    destruct (sql_from_name pd (table_name args)) as [ft|]; [|discriminate].
    destruct (_ !! ft) as [tbl|] eqn:Hft; [|discriminate].
    injection H as <- <-. split; [reflexivity|].
    exists text, df0, (mkWorld (fs w1) (stdout w)), conn, pt, ft, tbl.
    destruct (makedirs_effect _ _ _ _ Hmk) as (Hout & _).
    split; [reflexivity|]. split; [exact Hread|]. split; [|split].
    + apply (makedirs_stdout _ _ (stdout w)) in Hmk. cbn [fs] in Hmk.
      now rewrite world_eta in Hmk.
    + apply (sqlite3_connect_fs _ w1); [reflexivity|exact Hconn].
    + repeat (split; [assumption || reflexivity|]).
      cbn [fs stdout]. rewrite Hout. cbn [stdout]. now rewrite <- app_assoc.
  - intros (-> & text & df0 & w1 & conn & pt & ft & tbl & -> & -> & Hmk & Hconn & Hs
              & Hsql & Hpt & Hft & Htbl & ->). cbv zeta.
    set (df := coerce_numeric_columns pd df0) in *.
    apply (makedirs_stdout _ _ (stdout w ++ before_write args df)) in Hmk.
    apply (sqlite3_connect_fs _ w1 (mkWorld (fs w1) (stdout w ++ before_write args df)) _
             eq_refl) in Hconn.
    rewrite (main_rest args df _ _ conn Hmk Hconn Hs Hsql). cbv zeta.
    unfold pragma_table_info, select_count. rewrite Hpt, Hft, Htbl. cbn [fs stdout].
    now rewrite <- app_assoc.
Qed.


Lemma schema_lines (cols : list (string * string)) :
  map (fun c : nat * string * string => schema_line (snd (fst c)) (snd c))
      (imap (fun i c => (i, fst c, snd c)) cols)
  = map (fun c => schema_line (fst c) (snd c)) cols.
Proof.
  change (map ?f ?l) with (f <$> l). rewrite fmap_imap.
  unfold compose. cbn. apply imap_const.
Qed.

Lemma length_rows_table_of df : length (rows (table_of pd df)) = len df.
Proof. unfold table_of. cbn. now rewrite length_map, length_seq. Qed.


(** *** The claims about the script *)

(** C5.  When the input path does not exist the process ends at once
    with [SystemExit] and a non-zero status, the world as it was: nothing
    made, nothing written, nothing printed.  A run that returns has
    status 0. *)
Theorem missing_input_aborts_before_any_write args w :
  (lookup_path w (csv_path args) = None ->
     exists msg, main pd args w = (Raise (SystemExit msg), w)
                 /\ exit_status (Raise (SystemExit msg)) <> 0%Z)
  /\ (forall n w', main pd args w = (Ok n, w') -> exit_status (Ok n) = 0%Z).
Proof.
  split.
  - intros Hcsv. rewrite main_start, Hcsv. eexists. split; [reflexivity|discriminate].
  - intros n w' [-> _]%main_Ok. reflexivity.
Qed.


(** C6.  A run after a run that returned, with the same arguments,
    returns too and leaves every file as the first run left it: the
    database, and so the table, its schema, its rows and their values,
    are the same. *)
Theorem second_run_changes_nothing args w n w1 :
  main pd args w = (Ok n, w1) ->
  exists w2,
    main pd args w1 = (Ok 0%Z, w2)
    /\ fs w2 = fs w1
    /\ lookup_path w2 (db_path args) = lookup_path w1 (db_path args)
    /\ exists tables df,
         lookup_path w2 (db_path args) = Some (SqliteFile tables)
         /\ tables !! table_name args = Some (table_of pd df).
Proof.
  intros (-> & text & df0 & wm & conn & pt & ft & tbl & Hcsv & Hread & Hmk & Hconn & Hs
            & Hsql & Hpt & Hft & Htbl & ->)%main_Ok.
  set (df := coerce_numeric_columns pd df0) in *.
  set (T := <[table_name args:=table_of pd df]> conn) in *.
  set (out1 := stdout w ++ before_write args df
                 ++ after_write (table_name args) (table_info T pt) (length (rows tbl))).
  set (w1 := mkWorld (<[db_path args:=SqliteFile T]> (fs wm)) out1).
  destruct (makedirs_effect _ _ _ _ Hmk) as (_ & _ & Hmono & Hdirs).
  specialize (Hdirs eq_refl).
  destruct (sqlite3_connect_inv _ _ _ _ Hconn) as [_ Hinv].
  destruct (Hinv conn eq_refl) as [[Hs' _]|(_ & He & Hparent & Hdb)]; [congruence|].
  assert (Hnodir : lookup_path wm (db_path args) <> Some Dir).
  { destruct Hdb as [[-> _]| ->]; discriminate. }
  assert (Hnotext : lookup_path wm (db_path args) <> Some (TextFile text)).
  { destruct Hdb as [[-> _]| ->]; discriminate. }
  assert (Hw1 : w1 = committed (db_path args) T (mkWorld (fs wm) out1)).
  { unfold committed. now rewrite Hs. }
  assert (Hdb1 : lookup_path w1 (db_path args) = Some (SqliteFile T))
    by (apply lookup_path_commit; assumption).
  assert (Hkeep : forall p nd, lookup_path wm p = Some nd -> p <> db_path args ->
                               lookup_path w1 p = Some nd).
  { intros p nd Hp Hne. rewrite Hw1. apply lookup_path_committed_ne; assumption. }
  assert (Hdirs1 : forall d, d ∈ dir_chain (parent_dir (db_path args)) ->
                             lookup_path w1 d = Some Dir).
  { intros d Hd. apply Hkeep; [now apply Hdirs|]. intros ->. apply Hnodir. now apply Hdirs. }
  assert (HT : <[table_name args:=table_of pd df]> T = T) by apply insert_insert_eq.
  assert (Hrun : main pd args w1
                 = (Ok 0%Z,
                    mkWorld (<[db_path args:=SqliteFile (<[table_name args:=table_of pd df]> T)]>
                               (fs w1))
                            (stdout w1 ++ before_write args df
                               ++ after_write (table_name args)
                                    (table_info (<[table_name args:=table_of pd df]> T) pt)
                                    (length (rows tbl))))).
  { apply main_Ok. split; [reflexivity|]. exists text, df0, w1, T, pt, ft, tbl.
    fold df. split; [|split; [exact Hread|split; [|split]]].
    - apply Hkeep; [now apply Hmono|]. intros E. apply Hnotext. rewrite <- E. now apply Hmono.
    - now apply ensure_dirs_idem.
    - apply sqlite3_connect_existing; [apply Hdirs1, parent_in_chain|exact Hdb1].
    - split; [exact Hs|]. split; [unfold T; now rewrite to_sql_replace_insert|].
      split; [exact Hpt|]. split; [exact Hft|]. split; [now rewrite HT|reflexivity]. }
  eexists. split; [exact Hrun|].
  assert (Hfs : <[db_path args:=SqliteFile (<[table_name args:=table_of pd df]> T)]> (fs w1)
                = fs w1).
  { rewrite HT. unfold w1. cbn [fs]. now rewrite insert_insert_eq. }
  cbn [fs]. split; [exact Hfs|]. split.
  - apply lookup_path_same_fs. cbn [fs]. now rewrite Hfs.
  - exists T, df. split; [|apply lookup_insert_eq].
    rewrite <- Hdb1. apply lookup_path_same_fs. cbn [fs]. now rewrite Hfs.
Qed.

End ScriptFacts.

(** The script on the scenario world. *)
Lemma ref_run :
  exists w', main Ref.pd Ref.nested_args Ref.world_with_input = (Ok 0%Z, w').
Proof. eexists. vm_compute. reflexivity. Qed.

Example scenario_report :
  stdout (snd (main Ref.pd Ref.nested_args Ref.world_with_input))
  = [reading_csv "team_data_combined/plays.csv"; rows_columns 2 3;
     inferred_dtypes; dtype_line "play" Int64; dtype_line "yards" Float64;
     dtype_line "note" string_; writing_db "out/db/plays.db" "plays";
     schema_header; schema_line "play" "INTEGER"; schema_line "yards" "REAL";
     schema_line "note" "TEXT"; row_count "plays" 2; done_].
Proof. vm_compute. reflexivity. Qed.

(** C3, at a table name that needs quoting.  The table name is given to
    [to_sql] as a value, and written as it is into the text of the two
    statements of the verification block.  With the name [[plays]] and a
    database that has a table plays already, the run returns; the table
    written is the one called [[plays]], with the three columns and two
    rows of the frame; the verification block reads, and reports under
    the name given, the old table plays: one column, one row. *)
Theorem verification_reads_another_table :
  exists w' tables written,
    main Ref.pd Ref.bracket_args Ref.world_with_db = (Ok 0%Z, w')
    /\ lookup_path w' "plays.db" = Some (SqliteFile tables)
    /\ tables !! "[plays]" = Some written
    /\ map fst (schema written) = ["play"; "yards"; "note"]
    /\ length (rows written) = 2
    /\ tables !! "plays" = Ref.old_tables !! "plays"
    /\ stdout w'
       = [reading_csv "team_data_combined/plays.csv"; rows_columns 2 3;
          inferred_dtypes; dtype_line "play" Int64; dtype_line "yards" Float64;
          dtype_line "note" string_; writing_db "plays.db" "[plays]";
          schema_header; schema_line "old" "TEXT"; row_count "[plays]" 1; done_].
Proof.
  eexists. eexists. eexists.
  split; [vm_compute; reflexivity|]. split; [vm_compute; reflexivity|].
  split; [vm_compute; reflexivity|]. repeat split; vm_compute; reflexivity.
Qed.

Lemma missing_input_aborts_before_any_write_witness :
  lookup_path Ref.empty_world (csv_path Ref.nested_args) = None
  /\ exists msg,
       main Ref.pd Ref.nested_args Ref.empty_world = (Raise (SystemExit msg), Ref.empty_world)
       /\ exit_status (Raise (SystemExit msg)) <> 0%Z.
Proof.
  split; [reflexivity|].
  apply (missing_input_aborts_before_any_write Ref.pd Ref.nested_args Ref.empty_world).
  reflexivity.
Defined.



Lemma second_run_changes_nothing_witness :
  exists w1 w2,
    main Ref.pd Ref.nested_args Ref.world_with_input = (Ok 0%Z, w1)
    /\ main Ref.pd Ref.nested_args w1 = (Ok 0%Z, w2)
    /\ fs w2 = fs w1.
Proof.
  destruct ref_run as [w1 Hrun].
  destruct (second_run_changes_nothing Ref.pd Ref.nested_args Ref.world_with_input
              0%Z w1 Hrun) as (w2 & Hrun2 & Hfs & _).
  exists w1, w2. auto.
Defined.

(** ** More about the column loop *)

Section LoopFacts.

Context {number : Type} (pd : pandas number).

Implicit Types (c : scalar number) (s : Series number) (df : DataFrame number).

Lemma to_numeric_length s : length (values (to_numeric pd s)) = length (values s).
Proof.
  unfold to_numeric. destruct (_ && _); [reflexivity|].
  destruct (forallb _ _); cbn [values]; apply length_map.
Qed.

Lemma coerce_series_idem s : coerce_series pd (coerce_series pd s) = coerce_series pd s.
Proof.
  unfold coerce_series. destruct (adopts pd s) eqn:Ha.
  - rewrite adopts_spec, (to_numeric_not_text pd). reflexivity.
  - now rewrite Ha.
Qed.

Lemma setitem_lengths df col s s' :
  getitem df col = Some s -> length (values s') = length (values s) ->
  column_lengths (setitem df col s') = column_lengths df.
Proof.
  unfold column_lengths. intros Hget Hlen.
  induction df as [|[n s0] df IH]; [reflexivity|]. cbn in *.
  destruct (String.eqb n col).
  - injection Hget as ->. cbn. now rewrite Hlen.
  - cbn. now rewrite IH.
Qed.

Lemma loop_body_lengths df col :
  column_lengths (loop_body pd df col) = column_lengths df.
Proof.
  rewrite loop_body_spec. destruct (getitem df col) as [s|] eqn:Hget; [|reflexivity].
  destruct (adopts pd s); [|reflexivity].
  apply (setitem_lengths df col s); [exact Hget|apply to_numeric_length].
Qed.

Lemma len_column_lengths df : len df = hd 0 (column_lengths df).
Proof. now destruct df as [|[n s] df]. Qed.

Lemma fold_loop_body_lengths cols df :
  column_lengths (fold_left (loop_body pd) cols df) = column_lengths df.
Proof.
  revert df. induction cols as [|c cols IH]; intros df; [reflexivity|].
  cbn [fold_left]. now rewrite IH, loop_body_lengths.
Qed.

Lemma len_coerce_loop df : len (coerce_loop pd df) = len df.
Proof.
  rewrite !len_column_lengths. unfold coerce_loop. now rewrite fold_loop_body_lengths.
Qed.

(** X1.  The loop keeps the columns: it adds none, drops none, renames
    none and does not reorder them, whatever the frame. *)
Theorem loop_keeps_columns df : columns (coerce_loop pd df) = columns df.
Proof. apply columns_coerce_loop. Qed.

(** X2.  The loop keeps the number of cells of every column, and so the
    number of rows of the frame. *)
Theorem loop_keeps_lengths df :
  column_lengths (coerce_loop pd df) = column_lengths df
  /\ len (coerce_loop pd df) = len df.
Proof. split; [apply fold_loop_body_lengths|apply len_coerce_loop]. Qed.

(** X3.  A column that is not stored as text (int64, float64, bool and
    the nullable dtypes) goes through the loop untouched. *)
Theorem loop_skips_typed_columns df name s :
  NoDup (columns df) -> getitem df name = Some s -> is_text s = false ->
  getitem (coerce_loop pd df) name = Some s.
Proof.
  intros Hnd Hget Ht. rewrite (getitem_coerce_loop pd df name s Hnd Hget).
  unfold coerce_series. rewrite adopts_spec, Ht. reflexivity.
Qed.

(** X4.  With distinct column names the loop treats each column on its
    own: the result is the frame with every column replaced by what the
    loop's tests decide for that column alone. *)
Theorem loop_is_columnwise df :
  NoDup (columns df) ->
  coerce_loop pd df
  = map (fun col : string * Series number => (fst col, coerce_series pd (snd col))) df.
Proof. intros Hnd. now rewrite coerce_loop_map. Qed.

(** X5.  The loop is idempotent: a converted column is no longer text
    and a column left as text is left again. *)
Theorem loop_idempotent df :
  NoDup (columns df) -> coerce_loop pd (coerce_loop pd df) = coerce_loop pd df.
Proof.
  intros Hnd. rewrite (coerce_loop_map pd (coerce_loop pd df))
    by (now rewrite columns_coerce_loop).
  rewrite (coerce_loop_map pd df Hnd), map_map.
  apply map_ext. intros [n s]. unfold coerce_column. cbn [fst snd].
  now rewrite coerce_series_idem.
Qed.


End LoopFacts.

Lemma loop_skips_typed_columns_witness :
  let s := mkSeries int64 [Num (Ref.int 7); Num (Ref.int 8)] in
  NoDup (columns [("c", s)])
  /\ is_text s = false
  /\ getitem (coerce_loop Ref.pd [("c", s)]) "c" = Some s.
Proof.
  intros s. split; [apply NoDup_one_column|]. split; [reflexivity|].
  apply (loop_skips_typed_columns Ref.pd [("c", s)] "c" s (NoDup_one_column _));
    reflexivity.
Defined.

(** Three columns: the first is converted, the second is left as text
    because of its cell "x", the third was typed already; none changes
    what happens to another. *)
Lemma loop_is_columnwise_witness :
  NoDup (columns Ref.three_columns)
  /\ coerce_loop Ref.pd Ref.three_columns
     = [("a", coerce_series Ref.pd Ref.one_gap);
        ("b", coerce_series Ref.pd Ref.one_word);
        ("c", coerce_series Ref.pd (mkSeries int64 [Num (Ref.int 7); Num (Ref.int 8);
                                                    Num (Ref.int 9)]))]
  /\ coerce_loop Ref.pd Ref.three_columns
     = [("a", mkSeries float64 [Num (Ref.float 1); NA; Num (Ref.float 3)]);
        ("b", Ref.one_word);
        ("c", mkSeries int64 [Num (Ref.int 7); Num (Ref.int 8); Num (Ref.int 9)])].
Proof.
  split; [apply NoDup_three_columns|].
  split; [apply (loop_is_columnwise Ref.pd Ref.three_columns NoDup_three_columns)|].
  reflexivity.
Defined.

Lemma loop_idempotent_witness :
  NoDup (columns [("c", Ref.one_gap)])
  /\ coerce_loop Ref.pd (coerce_loop Ref.pd [("c", Ref.one_gap)])
     = coerce_loop Ref.pd [("c", Ref.one_gap)].
Proof.
  split; [apply NoDup_one_column|].
  apply (loop_idempotent Ref.pd [("c", Ref.one_gap)] (NoDup_one_column _)).
Defined.


(** ** More about the script *)

Section RunFacts.

Context {number : Type} (pd : pandas number).

Implicit Types (w : @World number) (df : DataFrame number) (p : string).


(** X7.  With the policy "fail" a table that exists already makes
    [write_sqlite] raise [ValueError], and the database keeps its
    tables. *)
Theorem write_sqlite_fail_policy_keeps_table df db t w conn :
  (forall d, d ∈ dir_chain (parent_dir db) ->
             lookup_path w d = None \/ lookup_path w d = Some Dir) ->
  lookup_path w db = Some (SqliteFile conn) ->
  is_Some (conn !! t) ->
  exists w',
    write_sqlite pd df db t fail_ w = (Raise (ValueError "Table already exists."), w')
    /\ lookup_path w' db = Some (SqliteFile conn).
Proof.
  intros Hfree Hdb [old Hold].
  destruct (ensure_dirs_ok _ w (chain_shape db) Hfree) as [w1 Hmk].
  destruct (makedirs_effect _ _ _ _ Hmk) as (_ & _ & Hmono & Hdirs).
  assert (Hdb1 := Hmono _ _ Hdb).
  destruct (lookup_path_file _ _ _ Hdb1) as (Hs & He & _); [discriminate|].
  assert (Hconn := sqlite3_connect_existing db w1 conn
                     (Hdirs eq_refl _ (parent_in_chain db)) Hdb1).
  assert (Hsql : to_sql pd df t fail_ conn = (Raise (ValueError "Table already exists."), conn)).
  { unfold to_sql. now rewrite Hold. }
  rewrite (write_sqlite_eq pd df db t fail_ w w1 conn Hmk Hconn), Hsql. cbn [fst snd].
  eexists. split; [reflexivity|].
  apply lookup_path_committed; [exact Hs|exact He|]. rewrite Hdb1. discriminate.
Qed.



Lemma upto_last_sep_bare p : has_sep p = false -> upto_last_sep p = EmptyString.
Proof.
  induction p as [|c p IH]; [reflexivity|]. cbn.
  intros [Hc Hp]%orb_false_iff. now rewrite (IH Hp), Hc.
Qed.

Lemma parent_dir_bare p : has_sep p = false -> parent_dir p = ".".
Proof.
  intros Hp. unfold parent_dir, dirname. now rewrite (upto_last_sep_bare p Hp).
Qed.

(** X10.  For a database path that is a bare file name the directory to
    make is ["."]: [write_sqlite] makes no directory, and whatever its
    outcome no path other than the database changes. *)
Theorem bare_database_name_makes_no_directory df db t policy w :
  has_sep db = false ->
  os_makedirs (parent_dir db) w = (Ok tt, w)
  /\ forall r w', write_sqlite pd df db t policy w = (r, w') ->
                  forall p, p <> db -> fs w' !! p = fs w !! p.
Proof.
  intros Hbare.
  assert (Hmk : os_makedirs (parent_dir db) w = (Ok tt, w)).
  { rewrite (parent_dir_bare db Hbare). apply ensure_dirs_idem.
    intros d Hd. vm_compute in Hd. apply elem_of_cons in Hd as [->|Hd]; [reflexivity|].
    inversion Hd. }
  split; [exact Hmk|]. intros r w' Hw p Hne.
  apply write_sqlite_cases in Hw as [(e & _ & Hmk')|(w1 & Hmk' & Hrest)];
    rewrite Hmk in Hmk'; [discriminate|]. injection Hmk' as <-.
  destruct Hrest as [(e & _ & -> & _)|(conn & _ & _ & ->)]; [reflexivity|].
  now apply committed_fs_ne.
Qed.

(** X11.  The check of the input path lets a directory through, and a
    file that does not parse: [main] then fails in the read, after its
    first line of output and before it touches any file. *)
Theorem unreadable_input_fails_in_the_read args w :
  (lookup_path w (csv_path args) = Some Dir ->
     main pd args w
     = (Raise (IsADirectoryError (csv_path args)),
        mkWorld (fs w) (stdout w ++ [reading_csv (csv_path args)])))
  /\ (forall text, lookup_path w (csv_path args) = Some (TextFile text) ->
        read_csv pd text = None ->
        main pd args w
        = (Raise ParserError, mkWorld (fs w) (stdout w ++ [reading_csv (csv_path args)]))).
Proof.
  split.
  - intros Hcsv. now rewrite main_start, Hcsv.
  - intros text Hcsv Hread. now rewrite main_start, Hcsv, Hread.
Qed.

(** X13.  When the table name, written as it is into the two statements
    of the verification block, names to SQLite the table of that name
    (as a plain identifier does), a run that returns has reported the
    table it wrote: the columns of the frame it loaded, in their order,
    with the types [to_sql] declared, and as many rows as the frame
    has. *)
Theorem verification_reports_the_table_written args w n w' :
  sql_pragma_name pd (table_name args) = Some (table_name args) ->
  sql_from_name pd (table_name args) = Some (table_name args) ->
  main pd args w = (Ok n, w') ->
  exists text df0 tables,
    lookup_path w (csv_path args) = Some (TextFile text)
    /\ read_csv pd text = Some df0
    /\ lookup_path w' (db_path args) = Some (SqliteFile tables)
    /\ tables !! table_name args = Some (table_of pd (coerce_numeric_columns pd df0))
    /\ stdout w'
       = stdout w ++ before_write args (coerce_numeric_columns pd df0)
         ++ [schema_header]
         ++ map (fun c => schema_line (fst c) (sql_type pd (snd c)))
                (coerce_numeric_columns pd df0)
         ++ [row_count (table_name args) (len (coerce_numeric_columns pd df0)); done_].
Proof.
  intros Hpt Hft
    (-> & text & df0 & w1 & conn & pt & ft & tbl & Hcsv & Hread & Hmk & Hconn & Hs
       & _ & Hpt' & Hft' & Htbl & ->)%main_Ok.
  rewrite Hpt in Hpt'. rewrite Hft in Hft'. injection Hpt' as <-. injection Hft' as <-.
  rewrite lookup_insert_eq in Htbl. injection Htbl as <-.
  destruct (sqlite3_connect_inv _ _ _ _ Hconn) as [_ Hinv].
  destruct (Hinv conn eq_refl) as [[Hs' _]|(_ & He & _ & Hdb)]; [congruence|].
  exists text, df0. eexists. split; [exact Hcsv|]. split; [exact Hread|]. split; [|split].
  - apply lookup_path_commit; [exact Hs|exact He|].
    destruct Hdb as [[-> _]| ->]; discriminate.
  - apply lookup_insert_eq.
  - cbn [stdout]. unfold after_write, schema_report, table_info.
    rewrite lookup_insert_eq, schema_lines, length_rows_table_of.
    unfold table_of at 1. cbn [schema]. rewrite map_map. cbn [fst snd]. reflexivity.
Qed.

End RunFacts.



Lemma bare_chain_free (w : @World Ref.num) (d : string) :
  d ∈ dir_chain (parent_dir "plays.db") ->
  lookup_path w d = None \/ lookup_path w d = Some Dir.
Proof.
  intros Hd. vm_compute in Hd. apply elem_of_cons in Hd as [->|Hd]; [now right|].
  inversion Hd.
Qed.

Lemma write_sqlite_fail_policy_keeps_table_witness :
  lookup_path Ref.world_with_db "plays.db" = Some (SqliteFile Ref.old_tables)
  /\ is_Some (Ref.old_tables !! "plays")
  /\ exists w',
       write_sqlite Ref.pd [("c", Ref.one_gap)] "plays.db" "plays" fail_ Ref.world_with_db
       = (Raise (ValueError "Table already exists."), w')
       /\ lookup_path w' "plays.db" = Some (SqliteFile Ref.old_tables).
Proof.
  assert (Hdb : lookup_path Ref.world_with_db "plays.db" = Some (SqliteFile Ref.old_tables))
    by (vm_compute; reflexivity).
  assert (Ht : is_Some (Ref.old_tables !! "plays")) by (vm_compute; eauto).
  split; [exact Hdb|]. split; [exact Ht|].
  apply (write_sqlite_fail_policy_keeps_table Ref.pd [("c", Ref.one_gap)] "plays.db" "plays"
           Ref.world_with_db Ref.old_tables (bare_chain_free _) Hdb Ht).
Defined.



Lemma ref_run_with_db :
  exists w', main Ref.pd default_args Ref.world_with_db = (Ok 0%Z, w').
Proof. eexists. vm_compute. reflexivity. Qed.


Lemma bare_database_name_makes_no_directory_witness :
  has_sep "plays.db" = false
  /\ os_makedirs (parent_dir "plays.db") Ref.world_with_input = (Ok tt, Ref.world_with_input).
Proof.
  split; [reflexivity|].
  apply (bare_database_name_makes_no_directory Ref.pd [("c", Ref.one_gap)] "plays.db" "plays"
           replace_ Ref.world_with_input eq_refl).
Defined.

Lemma unreadable_input_fails_in_the_read_witness :
  lookup_path Ref.directory_world (csv_path Ref.nested_args) = Some Dir
  /\ main Ref.pd Ref.nested_args Ref.directory_world
     = (Raise (IsADirectoryError "team_data_combined/plays.csv"),
        mkWorld (fs Ref.directory_world) [reading_csv "team_data_combined/plays.csv"]).
Proof.
  assert (H : lookup_path Ref.directory_world (csv_path Ref.nested_args) = Some Dir)
    by (vm_compute; reflexivity).
  split; [exact H|].
  apply (unreadable_input_fails_in_the_read Ref.pd Ref.nested_args Ref.directory_world), H.
Defined.

Lemma verification_reports_the_table_written_witness :
  sql_pragma_name Ref.pd "plays" = Some "plays"
  /\ sql_from_name Ref.pd "plays" = Some "plays"
  /\ exists w',
       main Ref.pd default_args Ref.world_with_db = (Ok 0%Z, w')
       /\ stdout w'
          = [reading_csv "team_data_combined/plays.csv"; rows_columns 2 3;
             inferred_dtypes; dtype_line "play" Int64; dtype_line "yards" Float64;
             dtype_line "note" string_; writing_db "plays.db" "plays";
             schema_header; schema_line "play" "INTEGER"; schema_line "yards" "REAL";
             schema_line "note" "TEXT"; row_count "plays" 2; done_].
Proof.
  split; [reflexivity|]. split; [reflexivity|].
  destruct ref_run_with_db as [w' Hrun]. exists w'. split; [exact Hrun|].
  destruct (verification_reports_the_table_written Ref.pd default_args Ref.world_with_db
              0%Z w' eq_refl eq_refl Hrun)
    as (text & df0 & tables & Hcsv & Hread & _ & _ & Hout).
  vm_compute in Hcsv. injection Hcsv as <-.
  vm_compute in Hread. injection Hread as <-.
  rewrite Hout. vm_compute. reflexivity.
Defined.

(** ** From the input file to the table *)

Section EndToEnd.

Context {number : Type} (pd : pandas number).

(** X12.  When the library's refinement keeps the column names and the
    number of rows, the table of a run that returns has the columns of
    the frame read from the input file, in its order, and one row per
    row of that frame: neither the loop, nor the [except] branch, nor
    the writer changes them. *)
Theorem table_has_the_columns_and_rows_read args (w : @World number) n w' :
  (forall d d', convert_dtypes pd d = Some d' -> columns d' = columns d /\ len d' = len d) ->
  main pd args w = (Ok n, w') ->
  exists text df0 tables tbl,
    lookup_path w (csv_path args) = Some (TextFile text)
    /\ read_csv pd text = Some df0
    /\ lookup_path w' (db_path args) = Some (SqliteFile tables)
    /\ tables !! table_name args = Some tbl
    /\ map fst (schema tbl) = columns df0
    /\ length (rows tbl) = len df0.
Proof.
  intros Hlib
    (-> & text & df0 & w1 & conn & pt & ft & tbl0 & Hcsv & Hread & Hmk & Hconn & Hs
       & _ & _ & _ & _ & ->)%main_Ok.
  destruct (sqlite3_connect_inv _ _ _ _ Hconn) as [_ Hinv].
  destruct (Hinv conn eq_refl) as [[Hs' _]|(_ & He & _ & Hdb)]; [congruence|].
  assert (Hkeep : columns (coerce_numeric_columns pd df0) = columns df0
                  /\ len (coerce_numeric_columns pd df0) = len df0).
  { unfold coerce_numeric_columns, refine.
    assert (Hlen := len_coerce_loop pd df0).
    destruct (convert_dtypes pd (coerce_loop pd df0)) as [d'|] eqn:E.
    - destruct (Hlib _ _ E) as [Hc Hl]. rewrite Hc, Hl, columns_coerce_loop. auto.
    - rewrite columns_coerce_loop. auto. }
  destruct Hkeep as [Hcols Hlen].
  exists text, df0, (<[table_name args:=table_of pd (coerce_numeric_columns pd df0)]> conn),
    (table_of pd (coerce_numeric_columns pd df0)).
  split; [exact Hcsv|]. split; [exact Hread|]. split; [|split; [|split]].
  - apply lookup_path_commit; [exact Hs|exact He|].
    destruct Hdb as [[-> _]| ->]; discriminate.
  - apply lookup_insert_eq.
  - rewrite <- Hcols. unfold table_of, columns. cbn [schema]. now rewrite map_map.
  - now rewrite length_rows_table_of.
Qed.

End EndToEnd.

Lemma ref_convert_dtypes_keeps_shape (d d' : DataFrame Ref.num) :
  convert_dtypes Ref.pd d = Some d' -> columns d' = columns d /\ len d' = len d.
Proof.
  intros [= <-]. split.
  - unfold columns. now rewrite map_map.
  - destruct d as [|[name s] d]; [reflexivity|]. cbn. unfold Ref.refine_series.
    destruct (dtype_of s); repeat (destruct (_ : bool)); cbn [values];
      rewrite ?length_map; reflexivity.
Qed.

Lemma table_has_the_columns_and_rows_read_witness :
  exists w' tables tbl,
    main Ref.pd Ref.nested_args Ref.world_with_input = (Ok 0%Z, w')
    /\ lookup_path w' "out/db/plays.db" = Some (SqliteFile tables)
    /\ tables !! "plays" = Some tbl
    /\ map fst (schema tbl) = ["play"; "yards"; "note"]
    /\ length (rows tbl) = 2.
Proof.
  destruct ref_run as [w' Hrun].
  destruct (table_has_the_columns_and_rows_read Ref.pd Ref.nested_args Ref.world_with_input
              0%Z w' ref_convert_dtypes_keeps_shape Hrun)
    as (text & df0 & tables & tbl & Hcsv & Hread & Hdb & Ht & Hnames & Hrows).
  exists w', tables, tbl. split; [exact Hrun|]. split; [exact Hdb|]. split; [exact Ht|].
  vm_compute in Hcsv. injection Hcsv as <-.
  vm_compute in Hread. injection Hread as <-. split; [exact Hnames|exact Hrows].
Defined.
